(** * aeronet.dataset.io: block planning and windowed writing

  A shallow embedding of [src/aeronet/dataset/io.py]: the sequential
  sampler that plans overlapping read windows over a raster, the
  single-channel and multi-channel window writers that trim and place a
  processed tile, the abstract [Predictor.predict] hook and the
  [Predictor.process] driver.

  Integers are Python's unbounded [int], hence [Z].  Code that can raise
  runs in a small exception monad.  The storage layer (rasterio) is an
  external collaborator: a destination dataset is represented by the
  sequence of [write] calls it has received. *)

From Stdlib Require Import ZArith List Lia Bool Ascii String.
Import ListNotations.
Open Scope Z_scope.

(** ** The fragment of Python the module relies on *)

Module Py.

(** Exception kinds that the modelled code can raise. *)
Inductive exn : Set :=
| TypeError
| ValueError
| IndexError
| NotImplementedError.

Inductive result (A : Type) : Type :=
| Ok (a : A)
| Raise (e : exn).
Arguments Ok {A} a.
Arguments Raise {A} e.

Definition bind {A B : Type} (m : result A) (k : A -> result B) : result B :=
  match m with
  | Ok a => k a
  | Raise e => Raise e
  end.

Notation "x <- m ;; k" := (bind m (fun x => k))
  (at level 61, m at next level, right associativity).

(** [for a in l: body], threading the mutated state [s]. *)
Fixpoint for_in {A S : Type} (l : list A) (body : A -> S -> result S) (s : S)
  : result S :=
  match l with
  | [] => Ok s
  | a :: l' => s' <- body a s ;; for_in l' body s'
  end.

(** [for item in obj: body] for an object that defines [__getitem__] but
    not [__iter__]: the indices [i], [i + 1], ... are tried in turn and the
    loop ends at the first [IndexError].  [None] when [fuel] indices did
    not reach the end. *)
Fixpoint for_getitem {Item S : Type} (getitem_ : Z -> result Item)
    (body : Item -> S -> result S) (fuel : nat) (i : Z) (s : S)
  : option (result S) :=
  match fuel with
  | O => None
  | Datatypes.S fuel' =>
      match getitem_ i with
      | Raise IndexError => Some (Ok s)
      | Raise e => Some (Raise e)
      | Ok item =>
          match body item s with
          | Ok s' => for_getitem getitem_ body fuel' (i + 1) s'
          | Raise e => Some (Raise e)
          end
      end
  end.

(** Number of items of [range(start, stop, step)] for [step <> 0]. *)
Definition range_length (start stop step : Z) : Z :=
  if 0 <? step then
    if start <? stop then (stop - start - 1) / step + 1 else 0
  else
    if stop <? start then (start - stop - 1) / (- step) + 1 else 0.

(** [range(start, stop, step)], materialised; a zero step is a
    [ValueError]. *)
Definition range (start stop step : Z) : result (list Z) :=
  if step =? 0 then Raise ValueError
  else Ok (map (fun i => start + Z.of_nat i * step)
               (seq 0 (Z.to_nat (range_length start stop step)))).

Definition len {A : Type} (l : list A) : Z := Z.of_nat (List.length l).

(** [l[i]] on a list, with negative indices counted from the end. *)
Definition getitem {A : Type} (l : list A) (i : Z) : result A :=
  let j := if i <? 0 then i + len l else i in
  if j <? 0 then Raise IndexError
  else match nth_error l (Z.to_nat j) with
       | Some a => Ok a
       | None => Raise IndexError
       end.

(** Normalisation of one end of a slice [a:b] against a length [n]:
    a negative index counts from the end, and the result is clamped to
    [0..n]. *)
Definition adjust_index (i n : Z) : Z :=
  if i <? 0 then Z.max 0 (i + n) else Z.min i n.

(** Elements at positions [s .. e-1] of a list, for already normalised
    ends. *)
Definition sublist {A : Type} (s e : Z) (l : list A) : list A :=
  firstn (Z.to_nat (e - s)) (skipn (Z.to_nat s) l).

(** A two-dimensional numpy array: its shape and its rows. *)
Record ndarray (A : Type) : Type := mk_ndarray {
  shape0 : Z;
  shape1 : Z;
  rows : list (list A)
}.
Arguments mk_ndarray {A} _ _ _.
Arguments shape0 {A} _.
Arguments shape1 {A} _.
Arguments rows {A} _.

(** The rows agree with the declared shape. *)
Definition well_shaped {A : Type} (r : ndarray A) : Prop :=
  len (rows r) = shape0 r /\
  0 <= shape1 r /\
  Forall (fun row => len row = shape1 r) (rows r).

(** [r[a:b, c:d]]. *)
Definition getslice2 {A : Type} (r : ndarray A) (a b c d : Z) : ndarray A :=
  let s0 := adjust_index a (shape0 r) in
  let e0 := adjust_index b (shape0 r) in
  let s1 := adjust_index c (shape1 r) in
  let e1 := adjust_index d (shape1 r) in
  {| shape0 := Z.max 0 (e0 - s0);
     shape1 := Z.max 0 (e1 - s1);
     rows := map (sublist s1 e1) (sublist s0 e0 (rows r)) |}.

(** Objects needed to evaluate a [raise] statement. *)
Inductive object : Type :=
| NotImplemented                      (* the builtin constant *)
| Str (s : string)
| ExcClass (e : exn)
| ExcInstance (e : exn) (arg : object).

(** [f(arg)]: exception classes are callable and build an instance;
    the constant [NotImplemented], strings and exception instances are
    not. *)
Definition call (f : object) (arg : object) : result object :=
  match f with
  | ExcClass e => Ok (ExcInstance e arg)
  | NotImplemented | Str _ | ExcInstance _ _ => Raise TypeError
  end.

(** [raise v]: only exception classes and instances can be raised. *)
Definition raise_ {A : Type} (v : object) : result A :=
  match v with
  | ExcClass e | ExcInstance e _ => Raise e
  | NotImplemented | Str _ => Raise TypeError
  end.

End Py.

Import Py.

(** ** Block planner *)

(** The part of a [BandCollection] that the planner reads. *)
Record BandCollection : Type := mk_BandCollection {
bc_height : Z;
bc_width : Z
}.

(** A plan record, the dict
  [{'x', 'y', 'height', 'width', 'bounds': [[top, bottom], [left, right]]}]. *)
Record Block : Type := mk_Block {
x : Z;
y : Z;
height : Z;
width : Z;
bounds : list (list Z)
}.

Module SequentialSampler.

Record t : Type := mk {
  band_collection : BandCollection;
  channels : list string;
  sample_size : Z * Z;
  bound : Z;
  blocks : list Block
}.

Definition _compute_blocks (band_collection : BandCollection)
    (sample_size : Z * Z) (bound : Z) : result (list Block) :=
  let '(h, w) := sample_size in
  let blocks := [] in
  let height := h + 2 * bound in
  let width := w + 2 * bound in
  ys <- range (- bound) (bc_height band_collection) h ;;
  for_in ys (fun y blocks =>
    xs <- range (- bound) (bc_width band_collection) w ;;
    for_in xs (fun x blocks =>
      let rigth_x_bound :=
        Z.max bound (x + width - bc_width band_collection) in
      let bottom_y_bound :=
        Z.max bound (y + height - bc_height band_collection) in
      Ok (blocks ++ [ {| x := x;
                         y := y;
                         height := height;
                         width := width;
                         bounds := [[bound; bottom_y_bound];
                                    [bound; rigth_x_bound]] |} ]))
      blocks)
    blocks.

Definition __init__ (band_collection : BandCollection)
    (channels : list string) (sample_size : Z * Z) (bound : Z) : result t :=
  blocks <- _compute_blocks band_collection sample_size bound ;;
  Ok {| band_collection := band_collection;
        channels := channels;
        sample_size := sample_size;
        bound := bound;
        blocks := blocks |}.

Definition __len__ (self : t) : Z := len (blocks self).

(** [ordered_sample bc channels y x height width] stands for the storage
    layer's [bc.ordered( *channels).sample(y, x, height, width)]. *)
Definition __getitem__ {Sample : Type}
    (ordered_sample : BandCollection -> list string -> Z -> Z -> Z -> Z
                      -> result Sample)
    (self : t) (i : Z) : result (Sample * Block) :=
  block <- getitem (blocks self) i ;;
  sample <- ordered_sample (band_collection self) (channels self)
              (y block) (x block) (height block) (width block) ;;
  Ok (sample, block).

End SequentialSampler.

(** ** Windowed writers *)

(** A window [((row_start, row_stop), (col_start, col_stop))]. *)
Definition Window : Type := (Z * Z) * (Z * Z).

(** One call [dst.write(raster, indexes, window=window)] on the storage
    layer. *)
Record WriteCall (A : Type) : Type := mk_WriteCall {
  wc_raster : ndarray A;
  wc_indexes : Z;
  wc_window : Window
}.
Arguments mk_WriteCall {A} _ _ _.
Arguments wc_raster {A} _.
Arguments wc_indexes {A} _.
Arguments wc_window {A} _.

(** A destination dataset opened for writing: the calls it has received,
    oldest first, and whether it has been closed. *)
Record Dataset (A : Type) : Type := mk_Dataset {
  ds_writes : list (WriteCall A);
  ds_closed : bool
}.
Arguments mk_Dataset {A} _ _.
Arguments ds_writes {A} _.
Arguments ds_closed {A} _.

Definition Dataset_write {A : Type} (dst : Dataset A) (raster : ndarray A)
    (indexes : Z) (window : Window) : Dataset A :=
  {| ds_writes := ds_writes dst ++ [mk_WriteCall raster indexes window];
     ds_closed := ds_closed dst |}.

Definition Dataset_close {A : Type} (dst : Dataset A) : Dataset A :=
  {| ds_writes := ds_writes dst; ds_closed := true |}.

(** The [Band] handed back by [close]: the file it was written to. *)
Record Band : Type := mk_Band { band_fp : string }.

(** The optional [bounds] argument, [None] or [[[top, bottom], [left, right]]]. *)
Definition Bounds : Type := option (list (list Z)).

(** Truth value of [bounds] in [if bounds:]. *)
Definition truthy (bounds : Bounds) : bool :=
  match bounds with
  | None => false
  | Some [] => false
  | Some (_ :: _) => true
  end.

Module SampleWindowWriter.

Record t (A : Type) : Type := mk {
  fp : string;
  shape : Z * Z;
  dst : Dataset A
}.
Arguments mk {A} _ _ _.
Arguments fp {A} _.
Arguments shape {A} _.
Arguments dst {A} _.

Definition height {A : Type} (self : t A) : Z := fst (shape self).

Definition width {A : Type} (self : t A) : Z := snd (shape self).

(** [rasterio.open(fp, 'w', ...)] creates an empty destination. *)
Definition open {A : Type} : Dataset A :=
  {| ds_writes := []; ds_closed := false |}.

Definition __init__ {A : Type} (fp : string) (shape : Z * Z) : t A :=
  {| fp := fp; shape := shape; dst := open |}.

Definition close {A : Type} (self : t A) : Band * t A :=
  (mk_Band (fp self),
   {| fp := fp self; shape := shape self; dst := Dataset_close (dst self) |}).

(** The arguments of the final [self.dst.write]: the raster and the
    window, after the optional trimming. *)
Definition trimmed {A : Type} (raster : ndarray A) (x y width height : Z)
    (bounds : Bounds) : result (ndarray A * Window) :=
  if truthy bounds then
    let bounds := match bounds with Some b => b | None => [] end in
    b0 <- getitem bounds 0 ;;
    b1 <- getitem bounds 1 ;;
    b00 <- getitem b0 0 ;;
    b01 <- getitem b0 1 ;;
    b10 <- getitem b1 0 ;;
    b11 <- getitem b1 1 ;;
    let raster :=
      getslice2 raster b00 (shape0 raster - b01) b10 (shape1 raster - b11) in
    let x := x + b10 in
    let y := y + b00 in
    let width := width - b11 - b10 in
    let height := height - b01 - b00 in
    Ok (raster, ((y, y + height), (x, x + width)))
  else
    Ok (raster, ((y, y + height), (x, x + width))).

(** [write] returns [None] (here [tt]) and leaves the writer with one more
    call recorded on its destination. *)
Definition write {A : Type} (self : t A) (raster : ndarray A)
    (x y width height : Z) (bounds : Bounds) : result (unit * t A) :=
  rw <- trimmed raster x y width height bounds ;;
  Ok (tt, {| fp := fp self;
             shape := shape self;
             dst := Dataset_write (dst self) (fst rw) 1 (snd rw) |}).

End SampleWindowWriter.

(** [l[i] = v] for an index already known to be in range. *)
Fixpoint setitem {A : Type} (l : list A) (i : nat) (v : A) : list A :=
  match l, i with
  | [], _ => []
  | _ :: l', O => v :: l'
  | a :: l', S i' => a :: setitem l' i' v
  end.

Module SampleCollectionWindowWriter.

Record t (A : Type) : Type := mk {
  fps : list string;
  channels : list string;
  shape : Z * Z;
  writers : list (SampleWindowWriter.t A)
}.
Arguments mk {A} _ _ _ _.
Arguments fps {A} _.
Arguments channels {A} _.
Arguments shape {A} _.
Arguments writers {A} _.

Definition starts_with_sep (s : string) : bool :=
  match s with
  | String c _ => Ascii.eqb c "/"%char
  | EmptyString => false
  end.

Fixpoint ends_with_sep (s : string) : bool :=
  match s with
  | EmptyString => false
  | String c EmptyString => Ascii.eqb c "/"%char
  | String _ rest => ends_with_sep rest
  end.

(** [os.path.join(directory, name)] on a POSIX system. *)
Definition join (directory name : string) : string :=
  if starts_with_sep name then name
  else if String.eqb directory EmptyString || ends_with_sep directory
       then (directory ++ name)%string
       else (directory ++ "/" ++ name)%string.

Definition open {A : Type} (fps : list string) (shape : Z * Z)
    : list (SampleWindowWriter.t A) :=
  map (fun fp => SampleWindowWriter.__init__ fp shape) fps.

Definition __init__ {A : Type} (directory : string) (channels : list string)
    (shape : Z * Z) : t A :=
  let fps := map (fun channel => join directory (channel ++ ".tif")%string)
                 channels in
  {| fps := fps; channels := channels; shape := shape;
     writers := open fps shape |}.

(** The raster is channel-major: [raster[i]] is the 2D slice of channel
    [i].  The inner call passes [height] and [width] positionally, in the
    order they are written in the source. *)
Definition write {A : Type} (self : t A) (raster : list (ndarray A))
    (x y height width : Z) (bounds : Bounds) : result (unit * t A) :=
  idx <- range 0 (len (channels self)) 1 ;;
  ws <- for_in idx (fun i ws =>
          wi <- getitem ws i ;;
          ri <- getitem raster i ;;
          r <- SampleWindowWriter.write wi ri x y height width bounds ;;
          Ok (setitem ws (Z.to_nat i) (snd r)))
        (writers self) ;;
  Ok (tt, {| fps := fps self; channels := channels self;
             shape := shape self; writers := ws |}).

Definition close {A : Type} (self : t A) : list Band * t A :=
  let closed := map SampleWindowWriter.close (writers self) in
  (map fst closed,
   {| fps := fps self; channels := channels self; shape := shape self;
      writers := map snd closed |}).

End SampleCollectionWindowWriter.

(** ** Tile processor *)

Module Predictor.

Record t : Type := mk {
  input_channels : list string;
  output_labels : list string;
  sample_size : Z * Z;
  bound : Z
}.

Definition __init__ (input_channels output_labels : list string)
    (sample_size : Z * Z) (bound : Z) : t :=
  {| input_channels := input_channels;
     output_labels := output_labels;
     sample_size := sample_size;
     bound := bound |}.

(** The body is the single statement
    [raise NotImplemented('You should implement ...')]: the operand of
    [raise] is evaluated first, as a call of the builtin [NotImplemented]. *)
Definition predict {Sample Kwargs Raster : Type} (self : t) (sample : Sample)
    (kwargs : Kwargs) : result Raster :=
  exc <- call NotImplemented
           (Str "You should implement the predict function in your inherited class") ;;
  raise_ exc.

(** [predict] is the method found on [self]'s class, the base one above or
    an override; [ordered_sample] is the storage layer's read.  The loop
    [for sample, block in tqdm(src)] goes through [src[0]], [src[1]], ...;
    [len(src.blocks) + 1] indices are allowed for it, and [None] is the
    result if they do not reach the end of the loop.  The writer is built
    for the shape [bc.shape[1:]], the raster's height and width. *)
Definition process {Sample Kwargs A : Type}
    (ordered_sample : BandCollection -> list string -> Z -> Z -> Z -> Z
                      -> result Sample)
    (predict : t -> Sample -> Kwargs -> result (list (ndarray A)))
    (self : t) (bc : BandCollection) (output_directory : string)
    (kwargs : Kwargs)
  : option (result (list Band * SampleCollectionWindowWriter.t A)) :=
  match SequentialSampler.__init__ bc (input_channels self)
          (sample_size self) (bound self) with
  | Raise e => Some (Raise e)
  | Ok src =>
      let dst := SampleCollectionWindowWriter.__init__ output_directory
                   (output_labels self) (bc_height bc, bc_width bc) in
      match for_getitem (SequentialSampler.__getitem__ ordered_sample src)
              (fun item dst =>
                 let '(sample, block) := item in
                 raster <- predict self sample kwargs ;;
                 r <- SampleCollectionWindowWriter.write dst raster
                        (x block) (y block) (height block) (width block)
                        (Some (bounds block)) ;;
                 Ok (snd r))
              (Datatypes.S (List.length (SequentialSampler.blocks src))) 0 dst with
      | None => None
      | Some (Raise e) => Some (Raise e)
      | Some (Ok dst) => Some (Ok (SampleCollectionWindowWriter.close dst))
      end
  end.

End Predictor.

(** ** Reading a block's trims and its write region *)

(** [bounds[i][j]] of a block, for the four positions the planner fills. *)
Definition trim (blk : Block) (i j : nat) : Z :=
  nth j (nth i (bounds blk) []) 0.

Definition top_trim (blk : Block) : Z := trim blk 0 0.
Definition bottom_trim (blk : Block) : Z := trim blk 0 1.
Definition left_trim (blk : Block) : Z := trim blk 1 0.
Definition right_trim (blk : Block) : Z := trim blk 1 1.

(** Pixel [(r, c)] (row, column) lies in the trimmed write region of the
    block: rows [y + top, y + height - bottom) and columns
    [x + left, x + width - right). *)
Definition in_write_region (blk : Block) (r c : Z) : Prop :=
  (y blk + top_trim blk <= r < y blk + height blk - bottom_trim blk) /\
  (x blk + left_trim blk <= c < x blk + width blk - right_trim blk).

(** The record appended for the loop variables [x] and [y]. *)
Definition planned (H W h w b : Z) (y x : Z) : Block :=
  {| x := x;
     y := y;
     height := h + 2 * b;
     width := w + 2 * b;
     bounds := [[b; Z.max b (y + (h + 2 * b) - H)];
                [b; Z.max b (x + (w + 2 * b) - W)]] |}.

(** The [k]-th value of a loop variable that starts at [- b] and advances
    by [step]. *)
Definition stop_at (b step : Z) (k : nat) : Z := - b + Z.of_nat k * step.

(** Number of values taken by a loop variable starting at [- b]. *)
Definition steps (b stop step : Z) : nat :=
  Z.to_nat (range_length (- b) stop step).

(** [ny] rows of [nx] planned blocks each, row after row. *)
Definition grid (H W h w b : Z) (ny nx : nat) : list Block :=
  flat_map (fun j => map (fun i => planned H W h w b (stop_at b h j) (stop_at b w i))
                         (seq 0 nx))
           (seq 0 ny).

(** Integer ceiling of [n / d] for a positive [d]. *)
Definition ceil_div (n d : Z) : Z := - ((- n) / d).

(** ** Cropping, as the writer's contract words it *)

Definition remove_first {A : Type} (k : Z) (l : list A) : list A :=
  skipn (Z.to_nat k) l.

Definition remove_last {A : Type} (k : Z) (l : list A) : list A :=
  firstn (List.length l - Z.to_nat k) l.

(** The raster with its first [top] rows, last [bottom] rows, first [left]
    columns and last [right] columns removed. *)
Definition crop {A : Type} (raster : ndarray A) (top bottom left right : Z)
    : ndarray A :=
  {| shape0 := Z.max 0 (shape0 raster - top - bottom);
     shape1 := Z.max 0 (shape1 raster - left - right);
     rows := map (fun row => remove_last right (remove_first left row))
                 (remove_last bottom (remove_first top (rows raster))) |}.

(** The window with the given origin and extent. *)
Definition window_at (origin_x origin_y extent_w extent_h : Z) : Window :=
  ((origin_y, origin_y + extent_h), (origin_x, origin_x + extent_w)).

(** ** Reads issued by the sampler *)

(** The read issued for a block: rows first, [sample(y, x, height, width)]. *)
Definition read_block_with {Sample : Type}
    (ordered_sample : BandCollection -> list string -> Z -> Z -> Z -> Z
                      -> result Sample)
    (self : SequentialSampler.t) (blk : Block) : result Sample :=
  ordered_sample (SequentialSampler.band_collection self)
                 (SequentialSampler.channels self)
                 (y blk) (x blk) (height blk) (width blk).

(** ** The calls a processing run leaves on a channel *)

(** The call recorded on a channel's destination when the collection
    writer is given the block [blk] and the channel slice [r]: the slice
    cut by the block's trims, and the window whose row extent is taken
    from the block's [width] and whose column extent is taken from its
    [height]. *)
Definition block_call {A : Type} (blk : Block) (r : ndarray A) : WriteCall A :=
  {| wc_raster :=
       getslice2 r (top_trim blk) (shape0 r - bottom_trim blk)
                   (left_trim blk) (shape1 r - right_trim blk);
     wc_indexes := 1;
     wc_window :=
       ((y blk + top_trim blk,
         y blk + top_trim blk + (width blk - bottom_trim blk - top_trim blk)),
        (x blk + left_trim blk,
         x blk + left_trim blk + (height blk - right_trim blk - left_trim blk))) |}.

(** The writer of channel [c] once the blocks [done] have been processed,
    [out blk] being the predicted raster of block [blk]. *)
Definition channel_after {A : Type} (directory : string) (labels : list string)
    (shape : Z * Z) (closed : bool) (out : Block -> list (ndarray A))
    (done : list Block) (c : nat) : SampleWindowWriter.t A :=
  {| SampleWindowWriter.fp :=
       SampleCollectionWindowWriter.join directory
         (nth c labels EmptyString ++ ".tif")%string;
     SampleWindowWriter.shape := shape;
     SampleWindowWriter.dst :=
       {| ds_writes :=
            map (fun blk => block_call blk (nth c (out blk) (mk_ndarray 0 0 [])))
                done;
          ds_closed := closed |} |}.

(** The collection writer once the blocks [done] have been processed. *)
Definition run_state {A : Type} (directory : string) (labels : list string)
    (shape : Z * Z) (closed : bool) (out : Block -> list (ndarray A))
    (done : list Block) : SampleCollectionWindowWriter.t A :=
  {| SampleCollectionWindowWriter.fps :=
       map (fun channel =>
              SampleCollectionWindowWriter.join directory (channel ++ ".tif")%string)
           labels;
     SampleCollectionWindowWriter.channels := labels;
     SampleCollectionWindowWriter.shape := shape;
     SampleCollectionWindowWriter.writers :=
       map (channel_after directory labels shape closed out done)
           (seq 0 (List.length labels)) |}.

(** The write region of a block, as a window. *)
Definition region_window (blk : Block) : Window :=
  ((y blk + top_trim blk, y blk + height blk - bottom_trim blk),
   (x blk + left_trim blk, x blk + width blk - right_trim blk)).

(** ** Sample inputs *)

(** A raster of two rows and one column, and a writer that has not yet
    written. *)
Definition two_rows : ndarray Z :=
  {| shape0 := 2; shape1 := 1; rows := [[10]; [20]] |}.

Definition fresh_writer : SampleWindowWriter.t Z :=
  SampleWindowWriter.__init__ "out.tif" (2, 1).

(** A single-channel raster of two rows and three columns, and a
    collection writer for the one channel [A]. *)
Definition two_by_three : ndarray Z :=
  {| shape0 := 2; shape1 := 3; rows := [[1; 2; 3]; [4; 5; 6]] |}.

Definition one_channel_writer : SampleCollectionWindowWriter.t Z :=
  SampleCollectionWindowWriter.__init__ "out" ["A"%string] (2, 3).

(** A storage layer whose samples are the window that was asked for, and
    the sampler over a 4 x 4 raster with 2 x 2 samples and no bound. *)
Definition echo_window (bc : BandCollection) (channels : list string)
    (y x height width : Z) : result (Z * Z * Z * Z) :=
  Ok (y, x, height, width).

Definition small_sampler : SequentialSampler.t :=
  {| SequentialSampler.band_collection := mk_BandCollection 4 4;
     SequentialSampler.channels := ["RED"%string];
     SequentialSampler.sample_size := (2, 2);
     SequentialSampler.bound := 0;
     SequentialSampler.blocks :=
       [planned 4 4 2 2 0 0 0; planned 4 4 2 2 0 0 2;
        planned 4 4 2 2 0 2 0; planned 4 4 2 2 0 2 2] |}.

(** A 4 x 4 tile, the read extent of a block planned with 2 x 2 samples
    and a bound of 1, and a writer for a 5 x 5 destination. *)
Definition four_by_four : ndarray Z :=
  {| shape0 := 4; shape1 := 4;
     rows := [[11; 12; 13; 14]; [21; 22; 23; 24];
              [31; 32; 33; 34]; [41; 42; 43; 44]] |}.

Definition tile_writer : SampleWindowWriter.t Z :=
  SampleWindowWriter.__init__ "out.tif" (5, 5).

(** A collection writer for the channels [A] and [B], and the single-channel
    writer left by a write of [r] with no bounds at the origin, when the
    window extents are 2 columns and 3 rows. *)
Definition two_channel_writer : SampleCollectionWindowWriter.t Z :=
  SampleCollectionWindowWriter.__init__ "out" ["A"%string; "B"%string] (2, 3).

Definition after_plain_write (w : SampleWindowWriter.t Z) (r : ndarray Z)
  : SampleWindowWriter.t Z :=
  {| SampleWindowWriter.fp := SampleWindowWriter.fp w;
     SampleWindowWriter.shape := SampleWindowWriter.shape w;
     SampleWindowWriter.dst :=
       Dataset_write (SampleWindowWriter.dst w) r 1 ((0, 0 + 3), (0, 0 + 2)) |}.

(** A predictor for 2 x 2 samples without bound, a [predict] override that
    returns the same one-label 2 x 2 raster for every sample, and a storage
    layer whose reads raise a given exception. *)
Definition small_predictor : Predictor.t :=
  Predictor.__init__ ["RED"%string] ["label"%string] (2, 2) 0.

Definition two_by_two : ndarray Z :=
  {| shape0 := 2; shape1 := 2; rows := [[1; 2]; [3; 4]] |}.

Definition constant_predict (self : Predictor.t) (sample : Z * Z * Z * Z)
    (kwargs : unit) : result (list (ndarray Z)) :=
  Ok [two_by_two].


(** * Properties *)

(** ** Loops that only append *)

Section Loops.

Context {A B C : Type}.

Lemma for_in_map (g : A -> B) (body : B -> C -> result C) (l : list A) (s : C) :
  for_in (map g l) body s = for_in l (fun a => body (g a)) s.
Proof.
  revert s; induction l as [|a l IH]; intros s; simpl; [reflexivity|].
  destruct (body (g a) s); simpl; auto.
Qed.

Lemma for_in_ext (body body' : A -> C -> result C) (l : list A) (s : C) :
  (forall a s, body a s = body' a s) ->
  for_in l body s = for_in l body' s.
Proof.
  intros E. revert s; induction l as [|a l IH]; intros s; simpl; [reflexivity|].
  rewrite E. destruct (body' a s); simpl; auto.
Qed.

Lemma for_in_append (f : A -> B) (l : list A) (s : list B) :
  for_in l (fun a s => Ok (s ++ [f a])) s = Ok (s ++ map f l).
Proof.
  revert s; induction l as [|a l IH]; intros s; simpl.
  - now rewrite app_nil_r.
  - rewrite IH, <- app_assoc. reflexivity.
Qed.

End Loops.

Lemma for_in_rows {A B C : Type} (f : A -> B -> C) (xs : list B) (ys : list A)
    (s : list C) :
  for_in ys (fun y s => for_in xs (fun x s => Ok (s ++ [f y x])) s) s
  = Ok (s ++ flat_map (fun y => map (f y) xs) ys).
Proof.
  revert s; induction ys as [|y ys IH]; intros s; simpl.
  - now rewrite app_nil_r.
  - rewrite for_in_append. simpl. rewrite IH, <- app_assoc. reflexivity.
Qed.

(** ** [range] with a positive step *)

Lemma range_length_nonneg start stop step :
  0 < step -> 0 <= range_length start stop step.
Proof.
  intros Hs. unfold range_length.
  destruct (0 <? step) eqn:E; [|apply Z.ltb_ge in E; lia].
  destruct (start <? stop) eqn:E'; [|lia].
  apply Z.ltb_lt in E'.
  assert (0 <= (stop - start - 1) / step) by (apply Z.div_pos; lia).
  lia.
Qed.

(** The loop variable takes its [k]-th value exactly when that value is
    still below [stop]. *)
Lemma range_length_spec start stop step k :
  0 < step -> 0 <= k ->
  (k < range_length start stop step <-> start + k * step < stop).
Proof.
  intros Hs Hk. unfold range_length.
  destruct (0 <? step) eqn:E; [|apply Z.ltb_ge in E; lia].
  destruct (start <? stop) eqn:E'.
  - apply Z.ltb_lt in E'.
    pose proof (Z.div_mod (stop - start - 1) step ltac:(lia)) as Hdm.
    pose proof (Z.mod_pos_bound (stop - start - 1) step Hs) as Hmb.
    split; intros Hlt; nia.
  - apply Z.ltb_ge in E'. split; intros Hlt; nia.
Qed.

Lemma range_pos start stop step :
  0 < step ->
  range start stop step
  = Ok (map (fun i => start + Z.of_nat i * step)
            (seq 0 (Z.to_nat (range_length start stop step)))).
Proof.
  intros Hs. unfold range.
  destruct (step =? 0) eqn:E; [apply Z.eqb_eq in E; lia | reflexivity].
Qed.

Lemma steps_spec b stop step k :
  0 < step ->
  ((k < steps b stop step)%nat <-> stop_at b step k < stop).
Proof.
  intros Hs. unfold steps, stop_at.
  rewrite <- (range_length_spec (- b) stop step (Z.of_nat k)) by lia.
  pose proof (range_length_nonneg (- b) stop step Hs). lia.
Qed.

(** ** The planner as a nested enumeration *)

Lemma compute_blocks_grid H W h w b :
  0 < h -> 0 < w ->
  SequentialSampler._compute_blocks (mk_BandCollection H W) (h, w) b
  = Ok (grid H W h w b (steps b H h) (steps b W w)).
Proof.
  intros Hh Hw. unfold SequentialSampler._compute_blocks. simpl.
  rewrite (range_pos _ _ h Hh), (range_pos _ _ w Hw). simpl.
  rewrite for_in_map.
  erewrite for_in_ext.
  2:{ intros j s. rewrite for_in_map. reflexivity. }
  rewrite (for_in_rows (fun j i => planned H W h w b (stop_at b h j) (stop_at b w i))).
  reflexivity.
Qed.

Lemma in_grid H W h w b ny nx blk :
  In blk (grid H W h w b ny nx) <->
  exists j i, (j < ny)%nat /\ (i < nx)%nat /\
              blk = planned H W h w b (stop_at b h j) (stop_at b w i).
Proof.
  unfold grid. rewrite in_flat_map. split.
  - intros (j & Hj & Hin). apply in_map_iff in Hin as (i & <- & Hi).
    apply in_seq in Hj. apply in_seq in Hi.
    exists j, i. repeat split; lia.
  - intros (j & i & Hj & Hi & ->). exists j. split.
    + apply in_seq. lia.
    + apply in_map_iff. exists i. split; [reflexivity|]. apply in_seq. lia.
Qed.

Lemma length_grid H W h w b ny nx :
  List.length (grid H W h w b ny nx) = (ny * nx)%nat.
Proof.
  unfold grid. generalize 0%nat at 2 as s.
  induction ny as [|ny IH]; intros s; simpl; [reflexivity|].
  rewrite length_app, length_map, length_seq, IH. reflexivity.
Qed.

Lemma stop_at_inj b step j1 j2 :
  0 < step -> stop_at b step j1 = stop_at b step j2 -> j1 = j2.
Proof. unfold stop_at. intros Hs E. nia. Qed.

Lemma NoDup_flat_map {A B : Type} (F : A -> list B) (l : list A) :
  NoDup l ->
  (forall a, In a l -> NoDup (F a)) ->
  (forall a1 a2 z, In a1 l -> In a2 l -> In z (F a1) -> In z (F a2) -> a1 = a2) ->
  NoDup (flat_map F l).
Proof.
  induction 1 as [|a l Hnotin Hnd IH]; intros HF Hsep; simpl; [constructor|].
  apply NoDup_app.
  - apply HF. now left.
  - apply IH.
    + intros a' Ha'. apply HF. now right.
    + intros a1 a2 z H1 H2. apply Hsep; now right.
  - intros z Hz Hz'. apply in_flat_map in Hz' as (a' & Ha' & Hz').
    assert (a = a') by (apply (Hsep a a' z); auto; [now left | now right]).
    subst a'. contradiction.
Qed.

Lemma NoDup_grid H W h w b ny nx :
  0 < h -> 0 < w -> NoDup (grid H W h w b ny nx).
Proof.
  intros Hh Hw. unfold grid. apply NoDup_flat_map.
  - apply seq_NoDup.
  - intros j _. apply NoDup_map_NoDup_ForallPairs; [|apply seq_NoDup].
    intros i1 i2 _ _ E. apply (f_equal x) in E. simpl in E.
    now apply stop_at_inj in E.
  - intros j1 j2 z _ _ H1 H2.
    apply in_map_iff in H1 as (i1 & <- & _).
    apply in_map_iff in H2 as (i2 & E & _).
    apply (f_equal y) in E. simpl in E.
    symmetry. now apply stop_at_inj in E.
Qed.

(** ** Write regions of planned blocks *)

(** The trimmed region of the block in row [j], column [i] of the plan is
    the part of the [h] by [w] cell [(j, i)] that lies inside the raster. *)
Lemma region_planned H W h w b j i r c :
  in_write_region (planned H W h w b (stop_at b h j) (stop_at b w i)) r c <->
  (Z.of_nat j * h <= r < Z.of_nat j * h + h /\ r < H) /\
  (Z.of_nat i * w <= c < Z.of_nat i * w + w /\ c < W).
Proof.
  unfold in_write_region, top_trim, bottom_trim, left_trim, right_trim, trim,
    planned, stop_at; cbn [x y height width bounds nth].
  set (p := Z.of_nat j * h). set (q := Z.of_nat i * w). lia.
Qed.

Lemma cell_unique step j1 j2 r :
  Z.of_nat j1 * step <= r < Z.of_nat j1 * step + step ->
  Z.of_nat j2 * step <= r < Z.of_nat j2 * step + step ->
  j1 = j2.
Proof. intros H1 H2. nia. Qed.

Lemma cell_exists step stop b r :
  0 < step -> 0 <= b -> 0 <= r < stop ->
  exists j, (j < steps b stop step)%nat /\
            Z.of_nat j * step <= r < Z.of_nat j * step + step.
Proof.
  intros Hs Hb Hr. exists (Z.to_nat (r / step)).
  assert (0 <= r / step) by (apply Z.div_pos; lia).
  pose proof (Z.div_mod r step ltac:(lia)) as Hdm.
  pose proof (Z.mod_pos_bound r step Hs) as Hmb.
  rewrite Z2Nat.id by assumption.
  split; [|nia].
  apply steps_spec; [assumption|]. unfold stop_at.
  rewrite Z2Nat.id by assumption. nia.
Qed.

Lemma ceil_div_spec n d :
  0 < d -> d * (ceil_div n d - 1) < n <= d * ceil_div n d.
Proof.
  intros Hd. unfold ceil_div.
  pose proof (Z.div_mod (- n) d ltac:(lia)) as Hdm.
  pose proof (Z.mod_pos_bound (- n) d Hd) as Hmb.
  nia.
Qed.

Lemma steps_ceil b stop step :
  0 < step -> 0 < stop -> 0 <= b ->
  Z.of_nat (steps b stop step) = ceil_div (stop + b) step.
Proof.
  intros Hs Hstop Hb.
  pose proof (ceil_div_spec (stop + b) step Hs) as Hc.
  pose proof (range_length_nonneg (- b) stop step Hs) as Hn.
  unfold steps. rewrite Z2Nat.id by assumption.
  set (n := range_length (- b) stop step) in *.
  assert (Hlt : forall k, 0 <= k -> (k < n <-> - b + k * step < stop))
    by (intros k Hk; apply range_length_spec; assumption).
  assert (Hc0 : 0 < ceil_div (stop + b) step) by nia.
  destruct (Z.lt_trichotomy n (ceil_div (stop + b) step)) as [Hl|[He|Hg]];
    [exfalso | assumption | exfalso].
  - apply (Hlt n) in Hn as Hn'. nia.
  - pose proof (Hlt (ceil_div (stop + b) step) ltac:(lia)) as [Hx _].
    specialize (Hx Hg). nia.
Qed.

(** Whatever the steps, a successful plan consists of planned records. *)
Lemma for_in_preserves {A S : Type} (P : S -> Prop) (body : A -> S -> result S)
    (l : list A) (s s' : S) :
  (forall a s s', P s -> body a s = Ok s' -> P s') ->
  P s -> for_in l body s = Ok s' -> P s'.
Proof.
  intros Hbody. revert s; induction l as [|a l IH]; intros s Hs E; simpl in E.
  - inversion E; subst; assumption.
  - destruct (body a s) as [s1|] eqn:E1; simpl in E; [|discriminate].
    eapply IH; [|eassumption]. eapply Hbody; eassumption.
Qed.

Lemma blocks_are_planned bc h w b blocks :
  SequentialSampler._compute_blocks bc (h, w) b = Ok blocks ->
  Forall (fun blk => exists y x,
            blk = planned (bc_height bc) (bc_width bc) h w b y x) blocks.
Proof.
  unfold SequentialSampler._compute_blocks. simpl.
  destruct (range (- b) (bc_height bc) h) as [ys|]; simpl; [|discriminate].
  apply for_in_preserves; [|constructor].
  intros y s s' Hs.
  destruct (range (- b) (bc_width bc) w) as [xs|]; simpl; [|discriminate].
  apply for_in_preserves; [|assumption].
  intros x t t' Ht E. inversion E; subst.
  apply Forall_app. split; [assumption|].
  constructor; [|constructor]. exists y, x. reflexivity.
Qed.

(** ** Claims about the block planner *)

(** C1.  For a positive sample size and a non-negative bound, the trimmed
    write regions of the planned blocks cover exactly the pixels of
    [[0,H) x [0,W)], and no pixel lies in the regions of two different
    blocks of the plan. *)
Theorem write_regions_tile H W h w b :
  0 < h -> 0 < w -> 0 <= b ->
  exists blocks,
    SequentialSampler._compute_blocks (mk_BandCollection H W) (h, w) b = Ok blocks /\
    (forall r c,
        (0 <= r < H /\ 0 <= c < W) <->
        (exists blk, In blk blocks /\ in_write_region blk r c)) /\
    (forall i j bi bj r c,
        nth_error blocks i = Some bi ->
        nth_error blocks j = Some bj ->
        in_write_region bi r c ->
        in_write_region bj r c ->
        i = j).
Proof.
  intros Hh Hw Hb.
  exists (grid H W h w b (steps b H h) (steps b W w)).
  split; [now apply compute_blocks_grid|]. split.
  - intros r c. split.
    + intros [Hr Hc].
      destruct (cell_exists h H b r Hh Hb Hr) as (j & Hj & Hjr).
      destruct (cell_exists w W b c Hw Hb Hc) as (i & Hi & Hic).
      exists (planned H W h w b (stop_at b h j) (stop_at b w i)). split.
      * apply in_grid. now exists j, i.
      * apply region_planned. lia.
    + intros (blk & Hin & Hreg).
      apply in_grid in Hin as (j & i & _ & _ & ->).
      apply region_planned in Hreg. nia.
  - intros i j bi bj r c Ei Ej Hi Hj.
    assert (Hsame : bi = bj).
    { apply nth_error_In, in_grid in Ei as (j1 & i1 & _ & _ & ->).
      apply nth_error_In, in_grid in Ej as (j2 & i2 & _ & _ & ->).
      apply region_planned in Hi, Hj.
      assert (j1 = j2) by (apply (cell_unique h j1 j2 r); lia).
      assert (i1 = i2) by (apply (cell_unique w i1 i2 c); lia).
      now subst. }
    subst bj.
    pose proof (NoDup_grid H W h w b (steps b H h) (steps b W w) Hh Hw) as Hnd.
    rewrite NoDup_nth_error in Hnd. apply Hnd.
    + apply nth_error_Some. congruence.
    + congruence.
Qed.

Lemma write_regions_tile_witness :
  0 < 2 /\ 0 < 3 /\ 0 <= 1 /\
  exists blocks,
    SequentialSampler._compute_blocks (mk_BandCollection 5 7) (2, 3) 1 = Ok blocks /\
    (forall r c,
        (0 <= r < 5 /\ 0 <= c < 7) <->
        (exists blk, In blk blocks /\ in_write_region blk r c)) /\
    (forall i j bi bj r c,
        nth_error blocks i = Some bi ->
        nth_error blocks j = Some bj ->
        in_write_region bi r c ->
        in_write_region bj r c ->
        i = j).
Proof.
  split; [lia|]. split; [lia|]. split; [lia|].
  apply (write_regions_tile 5 7 2 3 1); lia.
Defined.

(** C3.  The plan is row-major: [y] runs over [-b, -b+h, ...] while
    [y < H] in the outer loop, [x] over [-b, -b+w, ...] while [x < W] in
    the inner loop, and the block emitted at [(x, y)] has height [h + 2b],
    width [w + 2b], top and left trim [b], right trim
    [max(b, x + width - W)] and bottom trim [max(b, y + height - H)]. *)
Theorem compute_blocks_row_major H W h w b :
  0 < h -> 0 < w -> 0 <= b ->
  exists ny nx : nat,
    (forall k : nat, (k < ny)%nat <-> - b + Z.of_nat k * h < H) /\
    (forall k : nat, (k < nx)%nat <-> - b + Z.of_nat k * w < W) /\
    SequentialSampler._compute_blocks (mk_BandCollection H W) (h, w) b
    = Ok (flat_map
            (fun j => map
               (fun i =>
                  let y := - b + Z.of_nat j * h in
                  let x := - b + Z.of_nat i * w in
                  let height := h + 2 * b in
                  let width := w + 2 * b in
                  {| x := x; y := y; height := height; width := width;
                     bounds := [[b; Z.max b (y + height - H)];
                                [b; Z.max b (x + width - W)]] |})
               (seq 0 nx))
            (seq 0 ny)).
Proof.
  intros Hh Hw _.
  exists (steps b H h), (steps b W w). split; [|split].
  - intros k. apply (steps_spec b H h k Hh).
  - intros k. apply (steps_spec b W w k Hw).
  - now apply compute_blocks_grid.
Qed.

Lemma compute_blocks_row_major_witness :
  0 < 2 /\ 0 < 3 /\ 0 <= 1 /\
  exists ny nx : nat,
    (forall k : nat, (k < ny)%nat <-> - 1 + Z.of_nat k * 2 < 5) /\
    (forall k : nat, (k < nx)%nat <-> - 1 + Z.of_nat k * 3 < 7) /\
    SequentialSampler._compute_blocks (mk_BandCollection 5 7) (2, 3) 1
    = Ok (flat_map
            (fun j => map
               (fun i =>
                  let y := - 1 + Z.of_nat j * 2 in
                  let x := - 1 + Z.of_nat i * 3 in
                  let height := 2 + 2 * 1 in
                  let width := 3 + 2 * 1 in
                  {| x := x; y := y; height := height; width := width;
                     bounds := [[1; Z.max 1 (y + height - 5)];
                                [1; Z.max 1 (x + width - 7)]] |})
               (seq 0 nx))
            (seq 0 ny)).
Proof.
  split; [lia|]. split; [lia|]. split; [lia|].
  apply (compute_blocks_row_major 5 7 2 3 1); lia.
Defined.

(** C5.  With a non-negative bound [b], a planned block whose read window
    ends inside the raster on the right and at the bottom
    ([x + width <= W] and [y + height <= H]) has bounds
    [[[b, b], [b, b]]]. *)
Theorem interior_block_bounds bc h w b blocks blk :
  0 <= b ->
  SequentialSampler._compute_blocks bc (h, w) b = Ok blocks ->
  In blk blocks ->
  x blk + width blk <= bc_width bc ->
  y blk + height blk <= bc_height bc ->
  bounds blk = [[b; b]; [b; b]].
Proof.
  intros Hb E Hin Hx Hy.
  apply blocks_are_planned in E. rewrite Forall_forall in E.
  destruct (E blk Hin) as (y0 & x0 & ->).
  unfold planned in *. cbn [x y height width bounds] in *.
  rewrite !Z.max_l by lia. reflexivity.
Qed.

Lemma interior_block_bounds_witness :
  bounds (planned 5 5 2 2 1 (- 1) (- 1)) = [[1; 1]; [1; 1]].
Proof.
  apply (interior_block_bounds (mk_BandCollection 5 5) 2 2 1
           [planned 5 5 2 2 1 (- 1) (- 1); planned 5 5 2 2 1 (- 1) 1;
            planned 5 5 2 2 1 (- 1) 3;
            planned 5 5 2 2 1 1 (- 1); planned 5 5 2 2 1 1 1;
            planned 5 5 2 2 1 1 3;
            planned 5 5 2 2 1 3 (- 1); planned 5 5 2 2 1 3 1;
            planned 5 5 2 2 1 3 3]).
  - lia.
  - reflexivity.
  - left; reflexivity.
  - simpl; lia.
  - simpl; lia.
Defined.

(** C6, as stated, fails: with [H = W = 5], [h = w = 2] and [b = 2] the
    block at [x = -2], [y = 0] reads rows [0..6), one past the bottom edge,
    yet its bottom trim stays at the bound [2], so
    [y + height - bottom_trim = 4], not [5]. *)
Lemma small_overhang_keeps_bound :
  exists blocks blk,
    SequentialSampler._compute_blocks (mk_BandCollection 5 5) (2, 2) 2 = Ok blocks /\
    In blk blocks /\
    y blk + height blk > 5 /\
    y blk + height blk - bottom_trim blk <> 5.
Proof.
  eexists. exists (planned 5 5 2 2 2 0 (- 2)).
  split; [reflexivity|]. split.
  - right; right; right; right. left. reflexivity.
  - split; vm_compute; [reflexivity | discriminate].
Qed.

(** C6, amended.  For every planned block whose read window overhangs the
    bottom edge by at least the bound ([y + height - H >= b]),
    [y + height - bottom_trim = H]; likewise, when it overhangs the right
    edge by at least the bound, [x + width - right_trim = W]. *)
Theorem overhang_trims_reach_edge bc h w b blocks blk :
  SequentialSampler._compute_blocks bc (h, w) b = Ok blocks ->
  In blk blocks ->
  (y blk + height blk - bc_height bc >= b ->
   y blk + height blk - bottom_trim blk = bc_height bc) /\
  (x blk + width blk - bc_width bc >= b ->
   x blk + width blk - right_trim blk = bc_width bc).
Proof.
  intros E Hin.
  apply blocks_are_planned in E. rewrite Forall_forall in E.
  destruct (E blk Hin) as (y0 & x0 & ->).
  unfold bottom_trim, right_trim, trim, planned.
  cbn [x y height width bounds nth]. lia.
Qed.

Lemma overhang_trims_reach_edge_witness :
  3 + 4 - bottom_trim (planned 5 5 2 2 1 3 3) = 5 /\
  3 + 4 - right_trim (planned 5 5 2 2 1 3 3) = 5.
Proof.
  destruct (overhang_trims_reach_edge (mk_BandCollection 5 5) 2 2 1
           [planned 5 5 2 2 1 (- 1) (- 1); planned 5 5 2 2 1 (- 1) 1;
            planned 5 5 2 2 1 (- 1) 3;
            planned 5 5 2 2 1 1 (- 1); planned 5 5 2 2 1 1 1;
            planned 5 5 2 2 1 1 3;
            planned 5 5 2 2 1 3 (- 1); planned 5 5 2 2 1 3 1;
            planned 5 5 2 2 1 3 3]
           (planned 5 5 2 2 1 3 3)) as [Hbottom Hright].
  - reflexivity.
  - do 8 right. left. reflexivity.
  - split; [apply Hbottom | apply Hright]; simpl; lia.
Defined.

(** C7.  For [H = W = 5], [h = w = 2], [b = 1]: every planned block reads a
    4 x 4 window; the block at [x = -1], [y = -1] has right trim
    [max(1, -1 + 4 - 5) = 1] and bottom trim [1]; the last row of blocks is
    the one at [y = 3] and each of its blocks has a bottom trim above [1];
    the last column is the one at [x = 3] and each of its blocks has a
    right trim above [1]. *)
Theorem scenario_5_5_2_2_1 :
  exists blocks,
    SequentialSampler._compute_blocks (mk_BandCollection 5 5) (2, 2) 1 = Ok blocks /\
    Forall (fun blk => height blk = 4 /\ width blk = 4) blocks /\
    (exists blk, In blk blocks /\ x blk = - 1 /\ y blk = - 1) /\
    Forall (fun blk => x blk = - 1 -> y blk = - 1 ->
                       right_trim blk = Z.max 1 (- 1 + 4 - 5) /\
                       right_trim blk = 1 /\ bottom_trim blk = 1) blocks /\
    Forall (fun blk => y blk <= 3 /\ x blk <= 3) blocks /\
    (exists blk, In blk blocks /\ y blk = 3) /\
    (exists blk, In blk blocks /\ x blk = 3) /\
    Forall (fun blk => y blk = 3 -> bottom_trim blk > 1) blocks /\
    Forall (fun blk => x blk = 3 -> right_trim blk > 1) blocks.
Proof.
  eexists. split; [reflexivity|].
  repeat split.
  - repeat constructor.
  - exists (planned 5 5 2 2 1 (- 1) (- 1)). repeat split. now left.
  - repeat constructor; cbn in *; try lia; try discriminate.
  - repeat constructor; cbn; discriminate.
  - exists (planned 5 5 2 2 1 3 3). split; [|reflexivity].
    do 8 right. now left.
  - exists (planned 5 5 2 2 1 3 3). split; [|reflexivity].
    do 8 right. now left.
  - repeat constructor; cbn; intros; try reflexivity; discriminate.
  - repeat constructor; cbn; intros; try reflexivity; discriminate.
Qed.

(** C9.  For a positive extent and sample size and a non-negative bound,
    [len] of the sampler is [ceil((H + b) / h) * ceil((W + b) / w)]. *)
Theorem sampler_len H W h w b channels :
  0 < H -> 0 < W -> 0 < h -> 0 < w -> 0 <= b ->
  exists self,
    SequentialSampler.__init__ (mk_BandCollection H W) channels (h, w) b = Ok self /\
    SequentialSampler.__len__ self = ceil_div (H + b) h * ceil_div (W + b) w.
Proof.
  intros HH HW Hh Hw Hb.
  unfold SequentialSampler.__init__.
  rewrite (compute_blocks_grid H W h w b Hh Hw). simpl.
  eexists. split; [reflexivity|].
  unfold SequentialSampler.__len__, len. simpl.
  rewrite length_grid, Nat2Z.inj_mul, !steps_ceil by assumption.
  reflexivity.
Qed.

Lemma sampler_len_witness :
  exists self,
    SequentialSampler.__init__ (mk_BandCollection 5 7) ["RED"%string] (2, 3) 1
    = Ok self /\
    SequentialSampler.__len__ self = ceil_div (5 + 1) 2 * ceil_div (7 + 1) 3.
Proof.
  apply (sampler_len 5 7 2 3 1 ["RED"%string]); lia.
Defined.

(** ** Slicing against cropping *)

Lemma sublist_crop {A : Type} (l : list A) (a b : Z) :
  0 <= a -> 0 <= b <= len l ->
  sublist (adjust_index a (len l)) (adjust_index (len l - b) (len l)) l
  = remove_last b (remove_first a l).
Proof.
  intros Ha Hb. unfold sublist, adjust_index, remove_last, remove_first, len in *.
  destruct (a <? 0) eqn:Ea; [apply Z.ltb_lt in Ea; lia|].
  destruct (Z.of_nat (List.length l) - b <? 0) eqn:Eb; [apply Z.ltb_lt in Eb; lia|].
  destruct (Z.le_gt_cases a (Z.of_nat (List.length l))) as [Hle|Hgt].
  - rewrite (Z.min_l a) by assumption. rewrite Z.min_l by lia.
    rewrite length_skipn. f_equal. lia.
  - rewrite (Z.min_r a) by lia. rewrite Nat2Z.id, skipn_all.
    rewrite (skipn_all2 l) by lia. now rewrite !firstn_nil.
Qed.

Lemma in_firstn {A : Type} (n : nat) (l : list A) (a : A) :
  In a (firstn n l) -> In a l.
Proof.
  intros Hin. rewrite <- (firstn_skipn n l). apply in_or_app. now left.
Qed.

Lemma in_skipn {A : Type} (n : nat) (l : list A) (a : A) :
  In a (skipn n l) -> In a l.
Proof.
  intros Hin. rewrite <- (firstn_skipn n l). apply in_or_app. now right.
Qed.

Lemma getslice2_crop {A : Type} (r : ndarray A) (top bottom left right : Z) :
  well_shaped r ->
  0 <= top -> 0 <= bottom <= shape0 r ->
  0 <= left -> 0 <= right <= shape1 r ->
  getslice2 r top (shape0 r - bottom) left (shape1 r - right)
  = crop r top bottom left right.
Proof.
  intros (Hrows & Hcols0 & Hcols) Ht Hb Hl Hr.
  unfold getslice2, crop. f_equal.
  - unfold adjust_index.
    destruct (top <? 0) eqn:E1; [apply Z.ltb_lt in E1; lia|].
    destruct (shape0 r - bottom <? 0) eqn:E2; [apply Z.ltb_lt in E2; lia|]. lia.
  - unfold adjust_index.
    destruct (left <? 0) eqn:E1; [apply Z.ltb_lt in E1; lia|].
    destruct (shape1 r - right <? 0) eqn:E2; [apply Z.ltb_lt in E2; lia|]. lia.
  - rewrite <- Hrows. rewrite sublist_crop by lia.
    apply map_ext_in. intros row Hin.
    assert (Hlen : len row = shape1 r).
    { rewrite Forall_forall in Hcols. apply Hcols.
      unfold remove_last, remove_first in Hin.
      eapply in_skipn, in_firstn. exact Hin. }
    rewrite <- Hlen. apply sublist_crop; lia.
Qed.

Lemma crop_nothing {A : Type} (r : ndarray A) :
  well_shaped r -> crop r 0 0 0 0 = r.
Proof.
  intros (Hrows & Hcols0 & Hcols). destruct r as [n m rs]; simpl in *.
  unfold crop; simpl. unfold len in Hrows. f_equal; try lia.
  unfold remove_last, remove_first. simpl.
  rewrite Nat.sub_0_r, firstn_all.
  rewrite <- (map_id rs) at 2. apply map_ext.
  intros row. now rewrite Nat.sub_0_r, firstn_all.
Qed.

(** ** Claims about the single-channel writer *)

(** C4, as stated, fails when a trim exceeds the raster: for a raster of
    two rows and the bounds [[[0, 3], [0, 0]]], the stop index [2 - 3 = -1]
    of the row slice counts from the end, so the first row is written,
    whereas removing the last three rows leaves none. *)
Lemma oversized_trim_wraps :
  SampleWindowWriter.write fresh_writer two_rows 0 0 1 2 (Some [[0; 3]; [0; 0]])
  = Ok (tt, {| SampleWindowWriter.fp := "out.tif";
               SampleWindowWriter.shape := (2, 1);
               SampleWindowWriter.dst :=
                 {| ds_writes :=
                      [ {| wc_raster := {| shape0 := 1; shape1 := 1;
                                           rows := [[10]] |};
                           wc_indexes := 1;
                           wc_window := ((0, -1), (0, 1)) |} ];
                    ds_closed := false |} |}) /\
  SampleWindowWriter.write fresh_writer two_rows 0 0 1 2 (Some [[0; 3]; [0; 0]])
  <> Ok (tt, {| SampleWindowWriter.fp := "out.tif";
                SampleWindowWriter.shape := (2, 1);
                SampleWindowWriter.dst :=
                  Dataset_write (SampleWindowWriter.dst fresh_writer)
                    (crop two_rows 0 3 0 0) 1
                    (window_at (0 + 0) (0 + 0) (1 - 0 - 0) (2 - 0 - 3)) |}).
Proof.
  split; [reflexivity|]. vm_compute. intros E. discriminate E.
Qed.

(** C4, amended.  When the trims are non-negative and the bottom and right
    trims do not exceed the raster's rows and columns, [write] with
    [bounds = [[top, bottom], [left, right]]] passes to the destination the
    raster with its first [top] rows, last [bottom] rows, first [left]
    columns and last [right] columns removed, for the window with origin
    [(x + left, y + top)] and extent
    [(width - left - right, height - top - bottom)], and returns nothing. *)
Theorem write_with_bounds {A : Type} (self : SampleWindowWriter.t A)
    (raster : ndarray A) (x y width height top bottom left right : Z) :
  well_shaped raster ->
  0 <= top -> 0 <= bottom <= shape0 raster ->
  0 <= left -> 0 <= right <= shape1 raster ->
  SampleWindowWriter.write self raster x y width height
    (Some [[top; bottom]; [left; right]])
  = Ok (tt, {| SampleWindowWriter.fp := SampleWindowWriter.fp self;
               SampleWindowWriter.shape := SampleWindowWriter.shape self;
               SampleWindowWriter.dst :=
                 Dataset_write (SampleWindowWriter.dst self)
                   (crop raster top bottom left right) 1
                   (window_at (x + left) (y + top)
                              (width - left - right)
                              (height - top - bottom)) |}).
Proof.
  intros Hwf Ht Hb Hl Hr.
  unfold SampleWindowWriter.write, SampleWindowWriter.trimmed. simpl.
  rewrite getslice2_crop by assumption.
  unfold window_at. do 4 f_equal.
  f_equal; f_equal; lia.
Qed.

Lemma write_with_bounds_witness :
  SampleWindowWriter.write fresh_writer two_rows 0 0 1 2 (Some [[1; 0]; [0; 0]])
  = Ok (tt, {| SampleWindowWriter.fp := "out.tif";
               SampleWindowWriter.shape := (2, 1);
               SampleWindowWriter.dst :=
                 Dataset_write (SampleWindowWriter.dst fresh_writer)
                   (crop two_rows 1 0 0 0) 1
                   (window_at (0 + 0) (0 + 1) (1 - 0 - 0) (2 - 1 - 0)) |}).
Proof.
  apply (write_with_bounds fresh_writer two_rows 0 0 1 2 1 0 0 0).
  - unfold well_shaped; simpl. repeat split; try lia.
    repeat constructor.
  - lia.
  - simpl; lia.
  - lia.
  - simpl; lia.
Defined.

(** C10.  On a well-shaped raster, [write] with
    [bounds = [[0, 0], [0, 0]]] records the same raster for the same
    window as [write] with [bounds = None]. *)
Theorem zero_bounds_like_none {A : Type} (self : SampleWindowWriter.t A)
    (raster : ndarray A) (x y width height : Z) :
  well_shaped raster ->
  SampleWindowWriter.write self raster x y width height (Some [[0; 0]; [0; 0]])
  = SampleWindowWriter.write self raster x y width height None.
Proof.
  intros Hwf.
  assert (Hn : 0 <= shape0 raster)
    by (destruct Hwf as (<- & _); unfold len; lia).
  assert (Hm : 0 <= shape1 raster) by (destruct Hwf as (_ & ? & _); assumption).
  unfold SampleWindowWriter.write, SampleWindowWriter.trimmed. simpl.
  rewrite getslice2_crop by (assumption || lia).
  rewrite crop_nothing by assumption.
  do 4 f_equal. f_equal; f_equal; lia.
Qed.

Lemma zero_bounds_like_none_witness :
  SampleWindowWriter.write fresh_writer two_rows 0 0 1 2 (Some [[0; 0]; [0; 0]])
  = SampleWindowWriter.write fresh_writer two_rows 0 0 1 2 None.
Proof.
  apply (zero_bounds_like_none fresh_writer two_rows 0 0 1 2).
  unfold well_shaped; simpl. repeat split; try lia.
  repeat constructor.
Defined.

(** ** Claims about the multi-channel writer *)

(** With a single channel, the collection writer is the single-channel
    writer called with the collection's [height] in the position of
    [width] and its [width] in the position of [height]. *)
Lemma collection_write_one_channel {A : Type} (fps : list string)
    (channel : string) (shape : Z * Z) (w : SampleWindowWriter.t A)
    (r : ndarray A) (x y height width : Z) (bounds : Bounds) :
  SampleCollectionWindowWriter.write
    {| SampleCollectionWindowWriter.fps := fps;
       SampleCollectionWindowWriter.channels := [channel];
       SampleCollectionWindowWriter.shape := shape;
       SampleCollectionWindowWriter.writers := [w] |}
    [r] x y height width bounds
  = (res <- SampleWindowWriter.write w r x y height width bounds ;;
     Ok (tt, {| SampleCollectionWindowWriter.fps := fps;
                SampleCollectionWindowWriter.channels := [channel];
                SampleCollectionWindowWriter.shape := shape;
                SampleCollectionWindowWriter.writers := [snd res] |})).
Proof.
  unfold SampleCollectionWindowWriter.write. simpl.
  destruct (SampleWindowWriter.write w r x y height width bounds); reflexivity.
Qed.

(** C2 does not hold of the code.  A collection write with [height = 2]
    and [width = 3] reaches the single-channel writer with [width = 2] and
    [height = 3]: the recorded window spans rows [0..3) and columns
    [0..2), whereas the single-channel writer called with the same width
    and height records rows [0..2) and columns [0..3). *)
Theorem collection_write_swaps_extent :
  (exists self',
      SampleCollectionWindowWriter.write one_channel_writer [two_by_three]
        0 0 2 3 None = Ok (tt, self') /\
      map (fun w => map wc_window (ds_writes (SampleWindowWriter.dst w)))
          (SampleCollectionWindowWriter.writers self')
      = [[((0, 3), (0, 2))]]) /\
  (exists w',
      SampleWindowWriter.write (SampleWindowWriter.__init__ "out/A.tif" (2, 3))
        two_by_three 0 0 3 2 None = Ok (tt, w') /\
      map wc_window (ds_writes (SampleWindowWriter.dst w'))
      = [((0, 2), (0, 3))]).
Proof.
  split; eexists; split; reflexivity.
Qed.

(** ** Claims about the tile processor *)

(** C8 does not hold of the code.  [NotImplemented] is a constant, not an
    exception class: calling it fails with [TypeError] before any
    exception instance exists, so the base [predict] raises [TypeError]
    and never the not-implemented error. *)
Theorem predict_raises_type_error {Sample Kwargs Raster : Type}
    (self : Predictor.t) (sample : Sample) (kwargs : Kwargs) :
  @Predictor.predict Sample Kwargs Raster self sample kwargs = Raise TypeError /\
  @Predictor.predict Sample Kwargs Raster self sample kwargs
  <> Raise NotImplementedError.
Proof.
  split; [reflexivity|]. discriminate.
Qed.

(** * Further properties of the block planner *)

Lemma range_zero_step start stop : range start stop 0 = Raise ValueError.
Proof. reflexivity. Qed.

Lemma for_in_idle {A S : Type} (l : list A) (s : S) :
  for_in l (fun _ s => Ok s) s = Ok s.
Proof. induction l as [|a l IH]; simpl; auto. Qed.

(** X1.  A zero sample height makes the constructor fail with
    [ValueError]; a zero sample width (with a positive height) does so
    exactly when the outer loop runs at least once, that is when
    [- bound < H]; with no row to plan the zero width goes unnoticed and
    the plan is empty. *)
Theorem zero_sample_size H W h w b channels :
  (h = 0 ->
   SequentialSampler.__init__ (mk_BandCollection H W) channels (h, w) b
   = Raise ValueError) /\
  (0 < h -> w = 0 -> - b < H ->
   SequentialSampler.__init__ (mk_BandCollection H W) channels (h, w) b
   = Raise ValueError) /\
  (0 < h -> w = 0 -> H <= - b ->
   exists self,
     SequentialSampler.__init__ (mk_BandCollection H W) channels (h, w) b
     = Ok self /\ SequentialSampler.blocks self = []).
Proof.
  unfold SequentialSampler.__init__, SequentialSampler._compute_blocks.
  cbn [bc_height bc_width]. split; [|split].
  - intros ->. reflexivity.
  - intros Hh -> Hlt. rewrite (range_pos _ _ h Hh), range_zero_step.
    pose proof (proj2 (range_length_spec (- b) H h 0 Hh ltac:(lia)) ltac:(lia)).
    destruct (Z.to_nat (range_length (- b) H h)) as [|n] eqn:E; [lia|].
    reflexivity.
  - intros Hh -> Hge. rewrite (range_pos _ _ h Hh).
    assert (E : Z.to_nat (range_length (- b) H h) = 0%nat).
    { pose proof (range_length_spec (- b) H h 0 Hh ltac:(lia)) as [Hx _].
      pose proof (range_length_nonneg (- b) H h Hh). lia. }
    rewrite E. simpl. eexists. split; reflexivity.
Qed.

Lemma zero_sample_size_witness :
  SequentialSampler.__init__ (mk_BandCollection 5 5) ["RED"%string] (0, 2) 1
  = Raise ValueError /\
  SequentialSampler.__init__ (mk_BandCollection 5 5) ["RED"%string] (2, 0) 1
  = Raise ValueError /\
  exists self,
    SequentialSampler.__init__ (mk_BandCollection (- 3) 5) ["RED"%string] (2, 0) 1
    = Ok self /\ SequentialSampler.blocks self = [].
Proof.
  destruct (zero_sample_size 5 5 0 2 1 ["RED"%string]) as (H1 & _ & _).
  destruct (zero_sample_size 5 5 2 0 1 ["RED"%string]) as (_ & H2 & _).
  destruct (zero_sample_size (- 3) 5 2 0 1 ["RED"%string]) as (_ & _ & H3).
  split; [apply H1; reflexivity|].
  split; [apply H2; lia|].
  apply H3; lia.
Defined.

(** X2.  A negative sample dimension is not rejected: when the loop start
    [- bound] does not exceed the raster extent, the corresponding
    descending range is empty and the constructor succeeds with an empty
    plan. *)
Theorem negative_sample_size_empty_plan H W h w b :
  (h < 0 /\ - b <= H) \/ (0 < h /\ w < 0 /\ - b <= W) ->
  SequentialSampler._compute_blocks (mk_BandCollection H W) (h, w) b = Ok [].
Proof.
  unfold SequentialSampler._compute_blocks. cbn [bc_height bc_width].
  intros [[Hh Hb] | (Hh & Hw & Hb)].
  - unfold range, range_length.
    destruct (h =? 0) eqn:E0; [apply Z.eqb_eq in E0; lia|].
    destruct (0 <? h) eqn:E1; [apply Z.ltb_lt in E1; lia|].
    destruct (H <? - b) eqn:E2; [apply Z.ltb_lt in E2; lia|].
    reflexivity.
  - rewrite (range_pos _ _ h Hh).
    assert (Ew : range (- b) W w = Ok []).
    { unfold range, range_length.
      destruct (w =? 0) eqn:E0; [apply Z.eqb_eq in E0; lia|].
      destruct (0 <? w) eqn:E1; [apply Z.ltb_lt in E1; lia|].
      destruct (W <? - b) eqn:E2; [apply Z.ltb_lt in E2; lia|].
      reflexivity. }
    rewrite Ew. simpl. apply for_in_idle.
Qed.

Lemma negative_sample_size_empty_plan_witness :
  SequentialSampler._compute_blocks (mk_BandCollection 5 5) (- 2, 2) 1 = Ok [] /\
  SequentialSampler._compute_blocks (mk_BandCollection 5 5) (2, - 2) 1 = Ok [].
Proof.
  split.
  - apply (negative_sample_size_empty_plan 5 5 (- 2) 2 1). left. lia.
  - apply (negative_sample_size_empty_plan 5 5 2 (- 2) 1). right. lia.
Defined.

(** X3.  Whatever the sample size and bound, every block of a plan that
    was computed has the same read extent [(h + 2b, w + 2b)], top and
    left trims equal to the bound, bottom and right trims of at least the
    bound, and a write region that ends no later than the raster's last
    row and column. *)
Theorem planned_block_invariants bc h w b blocks blk :
  SequentialSampler._compute_blocks bc (h, w) b = Ok blocks ->
  In blk blocks ->
  height blk = h + 2 * b /\ width blk = w + 2 * b /\
  top_trim blk = b /\ left_trim blk = b /\
  b <= bottom_trim blk /\ b <= right_trim blk /\
  y blk + height blk - bottom_trim blk <= bc_height bc /\
  x blk + width blk - right_trim blk <= bc_width bc.
Proof.
  intros E Hin.
  apply blocks_are_planned in E. rewrite Forall_forall in E.
  destruct (E blk Hin) as (y0 & x0 & ->).
  unfold top_trim, left_trim, bottom_trim, right_trim, trim, planned.
  cbn [x y height width bounds nth]. lia.
Qed.

Lemma planned_block_invariants_witness :
  height (planned 5 5 2 2 1 3 3) = 2 + 2 * 1 /\
  width (planned 5 5 2 2 1 3 3) = 2 + 2 * 1 /\
  top_trim (planned 5 5 2 2 1 3 3) = 1 /\
  left_trim (planned 5 5 2 2 1 3 3) = 1 /\
  1 <= bottom_trim (planned 5 5 2 2 1 3 3) /\
  1 <= right_trim (planned 5 5 2 2 1 3 3) /\
  3 + height (planned 5 5 2 2 1 3 3) - bottom_trim (planned 5 5 2 2 1 3 3) <= 5 /\
  3 + width (planned 5 5 2 2 1 3 3) - right_trim (planned 5 5 2 2 1 3 3) <= 5.
Proof.
  apply (planned_block_invariants (mk_BandCollection 5 5) 2 2 1
           [planned 5 5 2 2 1 (- 1) (- 1); planned 5 5 2 2 1 (- 1) 1;
            planned 5 5 2 2 1 (- 1) 3;
            planned 5 5 2 2 1 1 (- 1); planned 5 5 2 2 1 1 1;
            planned 5 5 2 2 1 1 3;
            planned 5 5 2 2 1 3 (- 1); planned 5 5 2 2 1 3 1;
            planned 5 5 2 2 1 3 3]
           (planned 5 5 2 2 1 3 3)).
  - reflexivity.
  - do 8 right. left. reflexivity.
Defined.

(** X4.  Without a bound, and when the sample size divides the raster
    extent ([H = m * h], [W = n * w]), the plan has [m * n] blocks, none
    of them is trimmed, and every read window lies inside the raster. *)
Theorem exact_tiling_untrimmed m n h w :
  0 < h -> 0 < w -> 0 <= m -> 0 <= n ->
  exists blocks,
    SequentialSampler._compute_blocks (mk_BandCollection (m * h) (n * w)) (h, w) 0
    = Ok blocks /\
    len blocks = m * n /\
    Forall (fun blk =>
              bounds blk = [[0; 0]; [0; 0]] /\
              0 <= y blk /\ y blk + height blk <= m * h /\
              0 <= x blk /\ x blk + width blk <= n * w) blocks.
Proof.
  intros Hh Hw Hm Hn.
  rewrite (compute_blocks_grid _ _ h w 0 Hh Hw).
  eexists. split; [reflexivity|]. split.
  - unfold len. rewrite length_grid, Nat2Z.inj_mul.
    assert (Hs : forall k step, 0 < step -> 0 <= k ->
                 Z.of_nat (steps 0 (k * step) step) = k).
    { intros k step Hstep Hk.
      pose proof (fun j => steps_spec 0 (k * step) step j Hstep) as Hsp.
      unfold stop_at in Hsp.
      destruct (Z.lt_trichotomy (Z.of_nat (steps 0 (k * step) step)) k)
        as [Hl|[He|Hg]]; [exfalso | assumption | exfalso].
      - specialize (Hsp (steps 0 (k * step) step)).
        destruct Hsp as [_ Hsp]. assert (Hx : (steps 0 (k * step) step
          < steps 0 (k * step) step)%nat) by (apply Hsp; nia). lia.
      - specialize (Hsp (Z.to_nat k)). destruct Hsp as [Hsp _].
        rewrite Z2Nat.id in Hsp by assumption.
        assert (- 0 + k * step < k * step) by (apply Hsp; lia). lia. }
    rewrite !Hs by assumption. reflexivity.
  - apply Forall_forall. intros blk Hin.
    apply in_grid in Hin as (j & i & Hj & Hi & ->).
    apply steps_spec in Hj; [|assumption].
    apply steps_spec in Hi; [|assumption].
    unfold planned, stop_at in *. cbn [x y height width bounds].
    assert (Z.of_nat j + 1 <= m) by nia.
    assert (Z.of_nat i + 1 <= n) by nia.
    rewrite !Z.max_l by nia.
    repeat split; nia.
Qed.

Lemma exact_tiling_untrimmed_witness :
  exists blocks,
    SequentialSampler._compute_blocks (mk_BandCollection (2 * 2) (2 * 2)) (2, 2) 0
    = Ok blocks /\
    len blocks = 2 * 2 /\
    Forall (fun blk =>
              bounds blk = [[0; 0]; [0; 0]] /\
              0 <= y blk /\ y blk + height blk <= 2 * 2 /\
              0 <= x blk /\ x blk + width blk <= 2 * 2) blocks.
Proof.
  apply (exact_tiling_untrimmed 2 2 2 2); lia.
Defined.

(** X5.  With a positive sample size, a planned block has a non-empty
    write region exactly when its pure region starts inside the raster,
    [y + b < H] and [x + b < W]. *)
Theorem write_region_nonempty_iff H W h w b blocks blk :
  0 < h -> 0 < w ->
  SequentialSampler._compute_blocks (mk_BandCollection H W) (h, w) b = Ok blocks ->
  In blk blocks ->
  ((exists r c, in_write_region blk r c) <-> y blk + b < H /\ x blk + b < W).
Proof.
  intros Hh Hw E Hin.
  rewrite (compute_blocks_grid H W h w b Hh Hw) in E. inversion E; subst.
  apply in_grid in Hin as (j & i & _ & _ & ->).
  cbn [x y planned]. unfold stop_at at 3 4. split.
  - intros (r & c & Hreg). apply region_planned in Hreg. lia.
  - intros [Hy Hx]. exists (Z.of_nat j * h), (Z.of_nat i * w).
    apply region_planned. lia.
Qed.

Lemma write_region_nonempty_iff_witness :
  (exists r c, in_write_region (planned 4 4 2 2 1 3 3) r c) <->
  3 + 1 < 4 /\ 3 + 1 < 4.
Proof.
  apply (write_region_nonempty_iff 4 4 2 2 1
           [planned 4 4 2 2 1 (- 1) (- 1); planned 4 4 2 2 1 (- 1) 1;
            planned 4 4 2 2 1 (- 1) 3;
            planned 4 4 2 2 1 1 (- 1); planned 4 4 2 2 1 1 1;
            planned 4 4 2 2 1 1 3;
            planned 4 4 2 2 1 3 (- 1); planned 4 4 2 2 1 3 1;
            planned 4 4 2 2 1 3 3]
           (planned 4 4 2 2 1 3 3)).
  - lia.
  - lia.
  - reflexivity.
  - do 8 right. left. reflexivity.
Defined.

(** * Indexing and iterating the sampler *)

Lemma getitem_middle {A : Type} (pre post : list A) (a : A) :
  getitem (pre ++ a :: post) (len pre) = Ok a.
Proof.
  unfold getitem, len.
  destruct (Z.of_nat (List.length pre) <? 0) eqn:E; [apply Z.ltb_lt in E; lia|].
  rewrite E, Nat2Z.id, nth_error_app2 by lia.
  now rewrite Nat.sub_diag.
Qed.

Lemma getitem_end {A : Type} (l : list A) :
  getitem l (len l) = Raise IndexError.
Proof.
  unfold getitem, len.
  destruct (Z.of_nat (List.length l) <? 0) eqn:E; [apply Z.ltb_lt in E; lia|].
  rewrite E, Nat2Z.id.
  destruct (nth_error l (List.length l)) eqn:En; [|reflexivity].
  assert (nth_error l (List.length l) <> None) as Hx%nth_error_Some by congruence.
  lia.
Qed.

Lemma getitem_outside {A : Type} (l : list A) (i : Z) :
  len l <= i \/ i < - len l -> getitem l i = Raise IndexError.
Proof.
  unfold getitem, len. intros [Hi|Hi].
  - destruct (i <? 0) eqn:E; [apply Z.ltb_lt in E; lia|]. rewrite E.
    destruct (nth_error l (Z.to_nat i)) eqn:En; [|reflexivity].
    assert (nth_error l (Z.to_nat i) <> None) as Hx%nth_error_Some by congruence.
    lia.
  - destruct (i <? 0) eqn:E; [|apply Z.ltb_ge in E; lia].
    destruct (i + Z.of_nat (List.length l) <? 0) eqn:E'; [reflexivity|].
    apply Z.ltb_ge in E'. lia.
Qed.

Lemma getitem_from_end {A : Type} (l : list A) (i : Z) :
  - len l <= i < 0 -> getitem l i = getitem l (i + len l).
Proof.
  unfold getitem, len. intros Hi.
  destruct (i <? 0) eqn:E; [|apply Z.ltb_ge in E; lia].
  destruct (i + Z.of_nat (List.length l) <? 0) eqn:E'; [apply Z.ltb_lt in E'; lia|].
  cbv zeta. rewrite E'. reflexivity.
Qed.

Lemma getitem_inside {A : Type} (l : list A) (i : Z) :
  0 <= i < len l ->
  exists a, nth_error l (Z.to_nat i) = Some a /\ getitem l i = Ok a.
Proof.
  unfold getitem, len. intros Hi.
  destruct (i <? 0) eqn:E; [apply Z.ltb_lt in E; lia|]. rewrite E.
  destruct (nth_error l (Z.to_nat i)) as [a|] eqn:En.
  - exists a. split; reflexivity.
  - apply nth_error_None in En. lia.
Qed.

Section Sampling.

Context {Sample : Type}.
Variable ordered_sample :
  BandCollection -> list string -> Z -> Z -> Z -> Z -> result Sample.

(** X6.  [sampler[i]] follows list indexing on the plan: an index outside
    [-len .. len-1] raises [IndexError] without reading anything, a
    negative index counts from the end, and an index [0 <= i < len] reads
    the window [(y, x, height, width)] of the [i]-th block and returns the
    sample with that block. *)
Theorem sampler_getitem_index (self : SequentialSampler.t) (i : Z) :
  (SequentialSampler.__len__ self <= i \/ i < - SequentialSampler.__len__ self ->
   SequentialSampler.__getitem__ ordered_sample self i = Raise IndexError) /\
  (- SequentialSampler.__len__ self <= i < 0 ->
   SequentialSampler.__getitem__ ordered_sample self i
   = SequentialSampler.__getitem__ ordered_sample self
       (i + SequentialSampler.__len__ self)) /\
  (0 <= i < SequentialSampler.__len__ self ->
   exists blk,
     nth_error (SequentialSampler.blocks self) (Z.to_nat i) = Some blk /\
     SequentialSampler.__getitem__ ordered_sample self i
     = (sample <- read_block_with ordered_sample self blk ;; Ok (sample, blk))).
Proof.
  unfold SequentialSampler.__getitem__, SequentialSampler.__len__.
  split; [|split].
  - intros Hi. now rewrite getitem_outside.
  - intros Hi. now rewrite getitem_from_end.
  - intros Hi. destruct (getitem_inside _ _ Hi) as (blk & Hn & ->).
    exists blk. split; [assumption | reflexivity].
Qed.

(** The index loop over a sampler visits the remaining blocks in order,
    as long as every read succeeds. *)
Lemma for_getitem_sampler {S : Type} (self : SequentialSampler.t)
    (rd : Block -> Sample) (body : Sample * Block -> S -> result S) :
  forall (rest pre : list Block) (fuel : nat) (s : S),
    SequentialSampler.blocks self = pre ++ rest ->
    (List.length rest < fuel)%nat ->
    (forall blk, In blk rest -> read_block_with ordered_sample self blk = Ok (rd blk)) ->
    for_getitem (SequentialSampler.__getitem__ ordered_sample self) body
      fuel (len pre) s
    = Some (for_in rest (fun blk s => body (rd blk, blk) s) s).
Proof.
  induction rest as [|blk rest IH]; intros pre fuel s Hsplit Hfuel Hread.
  - destruct fuel as [|fuel]; [simpl in Hfuel; lia|].
    rewrite app_nil_r in Hsplit. simpl.
    unfold SequentialSampler.__getitem__. rewrite Hsplit, getitem_end.
    reflexivity.
  - destruct fuel as [|fuel]; [simpl in Hfuel; lia|].
    simpl. unfold SequentialSampler.__getitem__ at 1.
    rewrite Hsplit, getitem_middle. simpl.
    fold (read_block_with ordered_sample self blk). rewrite (Hread blk (or_introl eq_refl)). simpl.
    destruct (body (rd blk, blk) s) as [s'|e]; [|reflexivity]. simpl.
    replace (len pre + 1) with (len (pre ++ [blk]))
      by (unfold len; rewrite length_app; simpl; lia).
    apply IH.
    + now rewrite <- app_assoc.
    + simpl in Hfuel. lia.
    + intros b Hb. apply Hread. now right.
Qed.

(** X7.  Iterating a sampler whose reads succeed yields one item per
    block, in plan order: the sample read for the block, paired with the
    block.  Any number of tried indices above [len] is enough. *)
Theorem sampler_iteration (self : SequentialSampler.t) (rd : Block -> Sample)
    (fuel : nat) :
  (forall blk, In blk (SequentialSampler.blocks self) ->
               read_block_with ordered_sample self blk = Ok (rd blk)) ->
  (List.length (SequentialSampler.blocks self) < fuel)%nat ->
  for_getitem (SequentialSampler.__getitem__ ordered_sample self)
    (fun item items => Ok (items ++ [item])) fuel 0 []
  = Some (Ok (map (fun blk => (rd blk, blk)) (SequentialSampler.blocks self))).
Proof.
  intros Hread Hfuel.
  rewrite (for_getitem_sampler self rd _ (SequentialSampler.blocks self) []
             fuel [] eq_refl Hfuel Hread).
  now rewrite (for_in_append (fun blk => (rd blk, blk))).
Qed.

End Sampling.

Lemma small_sampler_built :
  SequentialSampler.__init__ (mk_BandCollection 4 4) ["RED"%string] (2, 2) 0
  = Ok small_sampler.
Proof. reflexivity. Qed.

Lemma sampler_getitem_index_witness :
  SequentialSampler.__getitem__ echo_window small_sampler 4 = Raise IndexError /\
  SequentialSampler.__getitem__ echo_window small_sampler (- 1)
  = SequentialSampler.__getitem__ echo_window small_sampler 3 /\
  exists blk,
    nth_error (SequentialSampler.blocks small_sampler) (Z.to_nat 1) = Some blk /\
    SequentialSampler.__getitem__ echo_window small_sampler 1
    = (sample <- read_block_with echo_window small_sampler blk ;; Ok (sample, blk)).
Proof.
  destruct (sampler_getitem_index echo_window small_sampler 4) as (H1 & _ & _).
  destruct (sampler_getitem_index echo_window small_sampler (- 1)) as (_ & H2 & _).
  destruct (sampler_getitem_index echo_window small_sampler 1) as (_ & _ & H3).
  split; [apply H1; left; vm_compute; discriminate|].
  split; [apply H2; vm_compute; split; discriminate || reflexivity|].
  apply H3. vm_compute. split; discriminate || reflexivity.
Defined.

Lemma sampler_iteration_witness :
  for_getitem (SequentialSampler.__getitem__ echo_window small_sampler)
    (fun item items => Ok (items ++ [item])) 5 0 []
  = Some (Ok (map (fun blk => ((y blk, x blk, height blk, width blk), blk))
                  (SequentialSampler.blocks small_sampler))).
Proof.
  apply (sampler_iteration echo_window small_sampler
           (fun blk => (y blk, x blk, height blk, width blk)) 5).
  - intros blk _. reflexivity.
  - simpl. lia.
Defined.

(** * Further properties of the single-channel writer *)



(** The trimming step on a [bounds] of the regular shape. *)
Lemma trimmed_four {A : Type} (raster : ndarray A) (x y width height : Z)
    (top bottom left right : Z) :
  SampleWindowWriter.trimmed raster x y width height
    (Some [[top; bottom]; [left; right]])
  = Ok (getslice2 raster top (shape0 raster - bottom) left (shape1 raster - right),
        ((y + top, y + top + (height - bottom - top)),
         (x + left, x + left + (width - right - left)))).
Proof. reflexivity. Qed.

(** X9.  Planner and writer fit together: when a raster of a planned
    block's read extent is written with that block's [x], [y], [width],
    [height] and [bounds], the call succeeds, the raster handed to the
    destination is the one cropped by the block's four trims, its window
    is the block's write region, which starts at or after row and column 0
    and stops at or before the raster's last row and column, and the
    cropped raster has exactly the window's extent (an empty raster for a
    block without write region). *)
Theorem write_planned_block {A : Type} (self : SampleWindowWriter.t A)
    (raster : ndarray A) (H W h w b : Z) (blocks : list Block) (blk : Block) :
  0 < h -> 0 < w -> 0 <= b ->
  SequentialSampler._compute_blocks (mk_BandCollection H W) (h, w) b = Ok blocks ->
  In blk blocks ->
  well_shaped raster ->
  shape0 raster = height blk -> shape1 raster = width blk ->
  let r0 := y blk + top_trim blk in
  let r1 := y blk + height blk - bottom_trim blk in
  let c0 := x blk + left_trim blk in
  let c1 := x blk + width blk - right_trim blk in
  let cropped :=
    crop raster (top_trim blk) (bottom_trim blk) (left_trim blk) (right_trim blk) in
  SampleWindowWriter.write self raster (x blk) (y blk) (width blk) (height blk)
    (Some (bounds blk))
  = Ok (tt, {| SampleWindowWriter.fp := SampleWindowWriter.fp self;
               SampleWindowWriter.shape := SampleWindowWriter.shape self;
               SampleWindowWriter.dst :=
                 Dataset_write (SampleWindowWriter.dst self) cropped 1
                   ((r0, r1), (c0, c1)) |}) /\
  0 <= r0 /\ r1 <= H /\ 0 <= c0 /\ c1 <= W /\
  shape0 cropped = Z.max 0 (r1 - r0) /\
  shape1 cropped = Z.max 0 (c1 - c0).
Proof.
  intros Hh Hw Hb E Hin Hwf Hs0 Hs1.
  rewrite (compute_blocks_grid H W h w b Hh Hw) in E. inversion E; subst blocks.
  apply in_grid in Hin as (j & i & Hj & Hi & ->).
  apply steps_spec in Hj; [|assumption].
  apply steps_spec in Hi; [|assumption].
  unfold top_trim, bottom_trim, left_trim, right_trim, trim.
  unfold planned in *. cbn [x y height width bounds nth] in *.
  set (yy := stop_at b h j) in *. set (xx := stop_at b w i) in *.
  assert (Hy0 : 0 <= yy + b) by (unfold yy, stop_at; nia).
  assert (Hx0 : 0 <= xx + b) by (unfold xx, stop_at; nia).
  cbv zeta. split; [|unfold crop; cbn [shape0 shape1]; lia].
  unfold SampleWindowWriter.write. rewrite trimmed_four.
  rewrite getslice2_crop by (assumption || lia).
  cbn [bind fst snd]. do 4 f_equal. f_equal; f_equal; lia.
Qed.

Lemma four_by_four_well_shaped : well_shaped four_by_four.
Proof.
  unfold well_shaped; simpl. repeat split; try lia. repeat constructor.
Qed.

Lemma write_planned_block_witness :
  let blk := planned 5 5 2 2 1 3 3 in
  let r0 := y blk + top_trim blk in
  let r1 := y blk + height blk - bottom_trim blk in
  let c0 := x blk + left_trim blk in
  let c1 := x blk + width blk - right_trim blk in
  let cropped :=
    crop four_by_four (top_trim blk) (bottom_trim blk) (left_trim blk)
      (right_trim blk) in
  SampleWindowWriter.write tile_writer four_by_four (x blk) (y blk) (width blk)
    (height blk) (Some (bounds blk))
  = Ok (tt, {| SampleWindowWriter.fp := SampleWindowWriter.fp tile_writer;
               SampleWindowWriter.shape := SampleWindowWriter.shape tile_writer;
               SampleWindowWriter.dst :=
                 Dataset_write (SampleWindowWriter.dst tile_writer) cropped 1
                   ((r0, r1), (c0, c1)) |}) /\
  0 <= r0 /\ r1 <= 5 /\ 0 <= c0 /\ c1 <= 5 /\
  shape0 cropped = Z.max 0 (r1 - r0) /\
  shape1 cropped = Z.max 0 (c1 - c0).
Proof.
  intros blk.
  apply (write_planned_block tile_writer four_by_four 5 5 2 2 1
           [planned 5 5 2 2 1 (- 1) (- 1); planned 5 5 2 2 1 (- 1) 1;
            planned 5 5 2 2 1 (- 1) 3;
            planned 5 5 2 2 1 1 (- 1); planned 5 5 2 2 1 1 1;
            planned 5 5 2 2 1 1 3;
            planned 5 5 2 2 1 3 (- 1); planned 5 5 2 2 1 3 1;
            planned 5 5 2 2 1 3 3]
           blk).
  - lia.
  - lia.
  - lia.
  - reflexivity.
  - do 8 right. left. reflexivity.
  - unfold well_shaped; simpl. repeat split; try lia. repeat constructor.
  - reflexivity.
  - reflexivity.
Defined.

(** * Further properties of the multi-channel writer *)

Lemma range_count n :
  0 <= n -> range 0 n 1 = Ok (map Z.of_nat (seq 0 (Z.to_nat n))).
Proof.
  intros Hn. rewrite range_pos by lia. f_equal.
  assert (E : range_length 0 n 1 = n).
  { unfold range_length. change (0 <? 1) with true. cbv iota.
    destruct (0 <? n) eqn:E0.
    - rewrite Z.div_1_r. lia.
    - apply Z.ltb_ge in E0. lia. }
  rewrite E. apply map_ext. intros i. lia.
Qed.

Lemma setitem_middle {A : Type} (pre post : list A) (a v : A) :
  setitem (pre ++ a :: post) (List.length pre) v = pre ++ v :: post.
Proof. induction pre as [|p pre IH]; simpl; [reflexivity | now rewrite IH]. Qed.




Lemma for_in_ext_in {A S : Type} (body body' : A -> S -> result S)
    (l : list A) (s : S) :
  (forall a s, In a l -> body a s = body' a s) ->
  for_in l body s = for_in l body' s.
Proof.
  revert s; induction l as [|a l IH]; intros s E; simpl; [reflexivity|].
  rewrite (E a s (or_introl eq_refl)).
  destruct (body' a s); simpl; [|reflexivity].
  apply IH. intros b t Hb. apply E. now right.
Qed.

Lemma for_in_preserves_in {A S : Type} (P : S -> Prop)
    (body : A -> S -> result S) (l : list A) (s s' : S) :
  (forall a s s', In a l -> P s -> body a s = Ok s' -> P s') ->
  P s -> for_in l body s = Ok s' -> P s'.
Proof.
  revert s; induction l as [|a l IH]; intros s Hbody Hs E; simpl in E.
  - inversion E; subst; assumption.
  - destruct (body a s) as [s1|] eqn:E1; simpl in E; [|discriminate].
    apply (IH s1); [| |assumption].
    + intros b t t' Hb. apply Hbody. now right.
    + apply (Hbody a s s1); auto. now left.
Qed.

Section Dispatch.

Context {A : Type}.
Variables (x y height width : Z) (bounds : Bounds).

(** The loop of the collection writer over the channel indices that are
    still to be served. *)
Lemma collection_loop (step : SampleWindowWriter.t A -> ndarray A
                              -> SampleWindowWriter.t A) :
  forall (rest_w : list (SampleWindowWriter.t A))
         (rest_r pre_r : list (ndarray A))
         (done : list (SampleWindowWriter.t A)),
    List.length pre_r = List.length done ->
    (List.length rest_w <= List.length rest_r)%nat ->
    (forall w r, In (w, r) (combine rest_w rest_r) ->
       SampleWindowWriter.write w r x y height width bounds = Ok (tt, step w r)) ->
    for_in (map Z.of_nat (seq (List.length done) (List.length rest_w)))
      (fun i ws =>
         wi <- getitem ws i ;;
         ri <- getitem (pre_r ++ rest_r) i ;;
         r <- SampleWindowWriter.write wi ri x y height width bounds ;;
         Ok (setitem ws (Z.to_nat i) (snd r)))
      (done ++ rest_w)
    = Ok (done ++ map (fun p => step (fst p) (snd p)) (combine rest_w rest_r)).
Proof.
  induction rest_w as [|w rest_w IH]; intros rest_r pre_r done Hlen Hle Hstep.
  - simpl. now rewrite app_nil_r.
  - destruct rest_r as [|r rest_r]; [simpl in Hle; lia|].
    cbn [List.length seq map for_in combine].
    pose proof (getitem_middle done rest_w w) as G1.
    pose proof (getitem_middle pre_r rest_r r) as G2.
    unfold len in G1, G2. rewrite Hlen in G2.
    rewrite G1. cbn [bind]. rewrite G2. cbn [bind].
    rewrite (Hstep w r (or_introl eq_refl)). cbn [bind snd fst].
    rewrite Nat2Z.id, setitem_middle.
    specialize (IH rest_r (pre_r ++ [r]) (done ++ [step w r])).
    rewrite !length_app in IH. cbn [List.length] in IH.
    rewrite <- !app_assoc in IH. cbn [app] in IH.
    replace (List.length done + 1)%nat with (Datatypes.S (List.length done)) in IH by lia.
    apply IH.
    + lia.
    + simpl in Hle. lia.
    + intros w' r' Hin. apply Hstep. now right.
Qed.

End Dispatch.

(** The collection write, channel by channel. *)
Lemma collection_write_all {A : Type}
    (self : SampleCollectionWindowWriter.t A) (raster : list (ndarray A))
    (x y height width : Z) (bounds : Bounds)
    (step : SampleWindowWriter.t A -> ndarray A -> SampleWindowWriter.t A) :
  List.length (SampleCollectionWindowWriter.writers self)
  = List.length (SampleCollectionWindowWriter.channels self) ->
  (List.length (SampleCollectionWindowWriter.channels self)
   <= List.length raster)%nat ->
  (forall w r,
      In (w, r) (combine (SampleCollectionWindowWriter.writers self) raster) ->
      SampleWindowWriter.write w r x y height width bounds = Ok (tt, step w r)) ->
  SampleCollectionWindowWriter.write self raster x y height width bounds
  = Ok (tt, {| SampleCollectionWindowWriter.fps :=
                 SampleCollectionWindowWriter.fps self;
               SampleCollectionWindowWriter.channels :=
                 SampleCollectionWindowWriter.channels self;
               SampleCollectionWindowWriter.shape :=
                 SampleCollectionWindowWriter.shape self;
               SampleCollectionWindowWriter.writers :=
                 map (fun p => step (fst p) (snd p))
                     (combine (SampleCollectionWindowWriter.writers self)
                              raster) |}).
Proof.
  intros Hlen Hle Hstep. unfold SampleCollectionWindowWriter.write.
  rewrite range_count by (unfold len; lia). cbn [bind].
  unfold len. rewrite Nat2Z.id, <- Hlen.
  pose proof (collection_loop x y height width bounds step
                (SampleCollectionWindowWriter.writers self) raster [] [] eq_refl
                ltac:(lia) Hstep) as Hloop.
  cbn [List.length app] in Hloop. rewrite Hloop. reflexivity.
Qed.

(** X10.  With one writer per channel and at least as many channel slices,
    a collection write is, channel by channel and in channel order, the
    single-channel write of that channel's slice with the same [x], [y]
    and [bounds], the collection's [height] in the position of [width] and
    its [width] in the position of [height]. *)
Theorem collection_write_dispatch {A : Type}
    (self : SampleCollectionWindowWriter.t A) (raster : list (ndarray A))
    (x y height width : Z) (bounds : Bounds)
    (step : SampleWindowWriter.t A -> ndarray A -> SampleWindowWriter.t A) :
  List.length (SampleCollectionWindowWriter.writers self)
  = List.length (SampleCollectionWindowWriter.channels self) ->
  (List.length (SampleCollectionWindowWriter.channels self)
   <= List.length raster)%nat ->
  (forall w r,
      In (w, r) (combine (SampleCollectionWindowWriter.writers self) raster) ->
      SampleWindowWriter.write w r x y height width bounds = Ok (tt, step w r)) ->
  SampleCollectionWindowWriter.write self raster x y height width bounds
  = Ok (tt, {| SampleCollectionWindowWriter.fps :=
                 SampleCollectionWindowWriter.fps self;
               SampleCollectionWindowWriter.channels :=
                 SampleCollectionWindowWriter.channels self;
               SampleCollectionWindowWriter.shape :=
                 SampleCollectionWindowWriter.shape self;
               SampleCollectionWindowWriter.writers :=
                 map (fun p => step (fst p) (snd p))
                     (combine (SampleCollectionWindowWriter.writers self)
                              raster) |}).
Proof.
  exact (collection_write_all self raster x y height width bounds step).
Qed.

Lemma collection_write_dispatch_witness :
  SampleCollectionWindowWriter.write two_channel_writer
    [two_by_three; two_by_three] 0 0 2 3 None
  = Ok (tt, {| SampleCollectionWindowWriter.fps :=
                 SampleCollectionWindowWriter.fps two_channel_writer;
               SampleCollectionWindowWriter.channels :=
                 SampleCollectionWindowWriter.channels two_channel_writer;
               SampleCollectionWindowWriter.shape :=
                 SampleCollectionWindowWriter.shape two_channel_writer;
               SampleCollectionWindowWriter.writers :=
                 map (fun p => after_plain_write (fst p) (snd p))
                     (combine
                        (SampleCollectionWindowWriter.writers two_channel_writer)
                        [two_by_three; two_by_three]) |}).
Proof.
  apply (collection_write_dispatch two_channel_writer
           [two_by_three; two_by_three] 0 0 2 3 None after_plain_write).
  - reflexivity.
  - simpl. lia.
  - intros w r _. reflexivity.
Defined.

Lemma getitem_app_l {A : Type} (l l' : list A) (i : Z) :
  0 <= i < len l -> getitem (l ++ l') i = getitem l i.
Proof.
  unfold getitem, len. intros Hi.
  destruct (i <? 0) eqn:E; [apply Z.ltb_lt in E; lia|].
  rewrite nth_error_app1 by lia. reflexivity.
Qed.

Lemma in_indices i k m :
  In i (map Z.of_nat (seq k m)) -> Z.of_nat k <= i < Z.of_nat (k + m).
Proof.
  intros Hin. apply in_map_iff in Hin as (j & <- & Hj).
  apply in_seq in Hj. lia.
Qed.

Lemma map_setitem_same {A B : Type} (f : A -> B) (l : list A) (n : nat)
    (a v : A) :
  nth_error l n = Some a -> f v = f a ->
  map f (setitem l n v) = map f l.
Proof.
  revert n; induction l as [|b l IH]; intros [|n] Hn Hf; simpl in *;
    try discriminate.
  - inversion Hn; subst. now rewrite Hf.
  - f_equal. now apply IH.
Qed.

Lemma write_keeps_fp {A : Type} (self : SampleWindowWriter.t A)
    (raster : ndarray A) (x y width height : Z) (bounds : Bounds)
    (res : unit * SampleWindowWriter.t A) :
  SampleWindowWriter.write self raster x y width height bounds = Ok res ->
  SampleWindowWriter.fp (snd res) = SampleWindowWriter.fp self.
Proof.
  unfold SampleWindowWriter.write.
  destruct (SampleWindowWriter.trimmed raster x y width height bounds);
    simpl; intros E; inversion E; reflexivity.
Qed.

Section CollectionErrors.

Context {A : Type}.
Variables (raster : list (ndarray A)) (x y height width : Z) (bounds : Bounds).


End CollectionErrors.



(** X12.  Channel slices beyond the writer's channels are never looked
    at: the write behaves as if they were absent. *)
Theorem collection_write_extra_channels {A : Type}
    (self : SampleCollectionWindowWriter.t A) (raster extra : list (ndarray A))
    (x y height width : Z) (bounds : Bounds) :
  (List.length (SampleCollectionWindowWriter.channels self)
   <= List.length raster)%nat ->
  SampleCollectionWindowWriter.write self (raster ++ extra) x y height width bounds
  = SampleCollectionWindowWriter.write self raster x y height width bounds.
Proof.
  intros Hle. unfold SampleCollectionWindowWriter.write.
  rewrite range_count by (unfold len; lia). cbn [bind].
  f_equal. apply for_in_ext_in.
  intros i ws Hin. apply in_indices in Hin.
  unfold len in Hin. rewrite Nat2Z.id in Hin.
  rewrite getitem_app_l by (unfold len; lia). reflexivity.
Qed.

Lemma collection_write_extra_channels_witness :
  SampleCollectionWindowWriter.write one_channel_writer
    ([two_by_three] ++ [two_rows]) 0 0 2 3 None
  = SampleCollectionWindowWriter.write one_channel_writer [two_by_three]
      0 0 2 3 None.
Proof.
  apply (collection_write_extra_channels one_channel_writer [two_by_three]
           [two_rows] 0 0 2 3 None).
  simpl. lia.
Defined.

Lemma collection_write_keeps_files {A : Type}
    (self self' : SampleCollectionWindowWriter.t A) (raster : list (ndarray A))
    (x y height width : Z) (bounds : Bounds) :
  SampleCollectionWindowWriter.write self raster x y height width bounds
  = Ok (tt, self') ->
  map SampleWindowWriter.fp (SampleCollectionWindowWriter.writers self')
  = map SampleWindowWriter.fp (SampleCollectionWindowWriter.writers self) /\
  SampleCollectionWindowWriter.channels self'
  = SampleCollectionWindowWriter.channels self /\
  SampleCollectionWindowWriter.fps self' = SampleCollectionWindowWriter.fps self.
Proof.
  unfold SampleCollectionWindowWriter.write.
  rewrite range_count by (unfold len; lia). cbn [bind].
  destruct (for_in _ _ _) as [ws|e] eqn:Eloop; cbn [bind]; [|discriminate].
  intros E. inversion E; subst. cbn. split; [|split; reflexivity].
  revert Eloop.
  apply (for_in_preserves_in
           (fun ws => map SampleWindowWriter.fp ws
                      = map SampleWindowWriter.fp
                          (SampleCollectionWindowWriter.writers self)));
    [|reflexivity].
  intros i s s' Hin Hs Hbody. apply in_indices in Hin.
  destruct (getitem s i) as [wi|] eqn:Ewi; cbn [bind] in Hbody; [|discriminate].
  destruct (getitem raster i) as [ri|]; cbn [bind] in Hbody; [|discriminate].
  destruct (SampleWindowWriter.write wi ri x y height width bounds)
    as [r|] eqn:Ew; cbn [bind] in Hbody; [|discriminate].
  inversion Hbody; subst s'. rewrite <- Hs.
  apply map_setitem_same with (a := wi); [|now apply write_keeps_fp in Ew].
  unfold getitem in Ewi.
  destruct (i <? 0) eqn:E0; [apply Z.ltb_lt in E0; lia|]. rewrite E0 in Ewi.
  destruct (nth_error s (Z.to_nat i)); congruence.
Qed.

(** X13.  A successful collection write changes no file path: closing
    the writer afterwards returns one [Band] per channel writer, in order,
    each with the path that writer had before the write. *)
Theorem collection_write_then_close {A : Type}
    (self self' : SampleCollectionWindowWriter.t A) (raster : list (ndarray A))
    (x y height width : Z) (bounds : Bounds) :
  SampleCollectionWindowWriter.write self raster x y height width bounds
  = Ok (tt, self') ->
  map band_fp (fst (SampleCollectionWindowWriter.close self'))
  = map SampleWindowWriter.fp (SampleCollectionWindowWriter.writers self).
Proof.
  intros E. apply collection_write_keeps_files in E as (<- & _ & _).
  unfold SampleCollectionWindowWriter.close. cbn [fst].
  rewrite !map_map. reflexivity.
Qed.

Lemma collection_write_then_close_witness :
  exists self',
    SampleCollectionWindowWriter.write two_channel_writer
      [two_by_three; two_by_three] 0 0 2 3 None = Ok (tt, self') /\
    map band_fp (fst (SampleCollectionWindowWriter.close self'))
    = ["out/A.tif"%string; "out/B.tif"%string].
Proof.
  eexists. split; [reflexivity|].
  apply (collection_write_then_close two_channel_writer _
           [two_by_three; two_by_three] 0 0 2 3 None).
  reflexivity.
Defined.

(** * Properties of a processing run *)

Lemma grid_first H W h w b :
  0 < h -> 0 < w -> - b < H -> - b < W ->
  exists rest,
    grid H W h w b (steps b H h) (steps b W w)
    = planned H W h w b (- b) (- b) :: rest.
Proof.
  intros Hh Hw HH HW.
  assert (Hy : (0 < steps b H h)%nat)
    by (apply steps_spec; [assumption | unfold stop_at; lia]).
  assert (Hx : (0 < steps b W w)%nat)
    by (apply steps_spec; [assumption | unfold stop_at; lia]).
  destruct (steps b H h) as [|ny]; [lia|].
  destruct (steps b W w) as [|nx]; [lia|].
  unfold grid. cbn [seq flat_map map app].
  replace (stop_at b h 0) with (- b) by (unfold stop_at; lia).
  replace (stop_at b w 0) with (- b) by (unfold stop_at; lia).
  eexists. reflexivity.
Qed.

Section Runs.

Context {Sample Kwargs A : Type}.
Variable ordered_sample :
  BandCollection -> list string -> Z -> Z -> Z -> Z -> result Sample.
Variable predict : Predictor.t -> Sample -> Kwargs -> result (list (ndarray A)).

(** X14.  On a raster with at least one block to plan, a run whose first
    read succeeds and whose [predict] raises fails with that exception;
    in particular the base [predict] makes every such run fail with
    [TypeError]. *)
Theorem process_predict_raises (self : Predictor.t) (H W h w : Z)
    (directory : string) (kwargs : Kwargs) (sample : Sample) (e : exn) :
  Predictor.sample_size self = (h, w) ->
  0 < h -> 0 < w ->
  - Predictor.bound self < H -> - Predictor.bound self < W ->
  ordered_sample (mk_BandCollection H W) (Predictor.input_channels self)
    (- Predictor.bound self) (- Predictor.bound self)
    (h + 2 * Predictor.bound self) (w + 2 * Predictor.bound self)
  = Ok sample ->
  predict self sample kwargs = Raise e ->
  Predictor.process ordered_sample predict self (mk_BandCollection H W)
    directory kwargs
  = Some (Raise e).
Proof.
  intros Hsize Hh Hw HH HW Hread Hpred.
  unfold Predictor.process, SequentialSampler.__init__.
  rewrite Hsize, (compute_blocks_grid H W h w _ Hh Hw). cbn [bind].
  destruct (grid_first H W h w (Predictor.bound self) Hh Hw HH HW)
    as (rest & ->).
  cbn [SequentialSampler.blocks List.length for_getitem].
  unfold SequentialSampler.__getitem__ at 1.
  cbn [SequentialSampler.blocks SequentialSampler.band_collection
       SequentialSampler.channels].
  change (getitem (planned H W h w (Predictor.bound self)
                     (- Predictor.bound self) (- Predictor.bound self) :: rest) 0)
    with (Ok (planned H W h w (Predictor.bound self)
                (- Predictor.bound self) (- Predictor.bound self))).
  cbn [bind planned x y height width]. rewrite Hread. cbn [bind].
  rewrite Hpred. reflexivity.
Qed.


End Runs.

(** ** A complete run *)

Lemma map_seq_nth {B C : Type} (f : B -> C) (l : list B) (d : B) :
  map f l = map (fun c => f (nth c l d)) (seq 0 (List.length l)).
Proof.
  induction l as [|a l IH]; [reflexivity|].
  cbn [List.length seq map nth]. f_equal.
  rewrite <- seq_shift, map_map. exact IH.
Qed.

Lemma combine_indexed {B C : Type} (G : nat -> B) (d : C) :
  forall (n k : nat) (rs : list C),
    (n <= List.length rs)%nat ->
    combine (map G (seq k n)) rs
    = map (fun c => (G c, nth (c - k) rs d)) (seq k n).
Proof.
  induction n as [|n IH]; intros k rs Hle; [reflexivity|].
  destruct rs as [|r rs]; [simpl in Hle; lia|].
  cbn [seq map combine]. rewrite Nat.sub_diag. cbn [nth]. f_equal.
  rewrite IH by (simpl in Hle; lia).
  apply map_ext_in. intros c Hc. apply in_seq in Hc.
  replace (c - k)%nat with (Datatypes.S (c - Datatypes.S k)) by lia.
  reflexivity.
Qed.

Lemma write_block_call {A : Type} (w : SampleWindowWriter.t A) (r : ndarray A)
    (blk : Block) (t bo l ri : Z) :
  bounds blk = [[t; bo]; [l; ri]] ->
  SampleWindowWriter.write w r (x blk) (y blk) (height blk) (width blk)
    (Some (bounds blk))
  = Ok (tt, {| SampleWindowWriter.fp := SampleWindowWriter.fp w;
               SampleWindowWriter.shape := SampleWindowWriter.shape w;
               SampleWindowWriter.dst :=
                 Dataset_write (SampleWindowWriter.dst w)
                   (wc_raster (block_call blk r)) 1
                   (wc_window (block_call blk r)) |}).
Proof.
  intros Hb. unfold SampleWindowWriter.write.
  unfold block_call, top_trim, bottom_trim, left_trim, right_trim, trim.
  rewrite Hb, trimmed_four. reflexivity.
Qed.

Section Run.

Context {Sample Kwargs A : Type}.
Variables (directory : string) (labels : list string) (shape : Z * Z).
Variable predict : Predictor.t -> Sample -> Kwargs -> result (list (ndarray A)).
Variables (self : Predictor.t) (kwargs : Kwargs).
Variables (rd : Block -> Sample) (out : Block -> list (ndarray A)).

Lemma run_state_init :
  SampleCollectionWindowWriter.__init__ directory labels shape
  = run_state directory labels shape false out [].
Proof.
  unfold SampleCollectionWindowWriter.__init__, run_state,
    SampleCollectionWindowWriter.open.
  f_equal. rewrite map_map.
  apply (map_seq_nth
           (fun channel =>
              SampleWindowWriter.__init__
                (SampleCollectionWindowWriter.join directory
                   (channel ++ ".tif")%string) shape)
           labels EmptyString).
Qed.

Lemma run_state_close (done : list Block) :
  SampleCollectionWindowWriter.close
    (run_state directory labels shape false out done)
  = (map (fun label =>
            mk_Band (SampleCollectionWindowWriter.join directory
                       (label ++ ".tif")%string)) labels,
     run_state directory labels shape true out done).
Proof.
  unfold SampleCollectionWindowWriter.close, run_state.
  cbn [SampleCollectionWindowWriter.writers SampleCollectionWindowWriter.fps
       SampleCollectionWindowWriter.channels SampleCollectionWindowWriter.shape].
  rewrite !map_map. f_equal.
  symmetry.
  apply (map_seq_nth
           (fun label =>
              mk_Band (SampleCollectionWindowWriter.join directory
                         (label ++ ".tif")%string))
           labels EmptyString).
Qed.

Lemma run_loop :
  forall rest pre : list Block,
    (forall blk, In blk rest ->
       (exists t bo l ri, bounds blk = [[t; bo]; [l; ri]]) /\
       predict self (rd blk) kwargs = Ok (out blk) /\
       (List.length labels <= List.length (out blk))%nat) ->
    for_in rest
      (fun blk dst =>
         raster <- predict self (rd blk) kwargs ;;
         r <- SampleCollectionWindowWriter.write dst raster
                (x blk) (y blk) (height blk) (width blk) (Some (bounds blk)) ;;
         Ok (snd r))
      (run_state directory labels shape false out pre)
    = Ok (run_state directory labels shape false out (pre ++ rest)).
Proof.
  induction rest as [|blk rest IH]; intros pre Hrest.
  - simpl. now rewrite app_nil_r.
  - cbn [for_in].
    destruct (Hrest blk (or_introl eq_refl)) as ((t & bo & l & ri & Hb) & Hp & Hn).
    rewrite Hp. cbn [bind].
    rewrite (collection_write_all
               (run_state directory labels shape false out pre) (out blk)
               (x blk) (y blk) (height blk) (width blk) (Some (bounds blk))
               (fun w r =>
                  {| SampleWindowWriter.fp := SampleWindowWriter.fp w;
                     SampleWindowWriter.shape := SampleWindowWriter.shape w;
                     SampleWindowWriter.dst :=
                       Dataset_write (SampleWindowWriter.dst w)
                         (wc_raster (block_call blk r)) 1
                         (wc_window (block_call blk r)) |})).
    + cbn [bind snd].
      replace (pre ++ blk :: rest) with ((pre ++ [blk]) ++ rest)
        by (now rewrite <- app_assoc).
      rewrite <- (IH (pre ++ [blk])) by (intros b Hb'; apply Hrest; now right).
      f_equal. unfold run_state.
      cbn [SampleCollectionWindowWriter.writers SampleCollectionWindowWriter.fps
           SampleCollectionWindowWriter.channels
           SampleCollectionWindowWriter.shape].
      f_equal.
      rewrite (combine_indexed _ (mk_ndarray 0 0 [])) by assumption.
      rewrite map_map. apply map_ext. intros c.
      cbn [fst snd]. rewrite Nat.sub_0_r.
      unfold channel_after, Dataset_write.
      cbn [SampleWindowWriter.fp SampleWindowWriter.shape SampleWindowWriter.dst
           ds_writes ds_closed].
      rewrite map_app. reflexivity.
    + unfold run_state. cbn [SampleCollectionWindowWriter.writers
                             SampleCollectionWindowWriter.channels].
      now rewrite length_map, length_seq.
    + exact Hn.
    + intros w r _. now apply (write_block_call w r blk t bo l ri).
Qed.

End Run.

Section CompleteRun.

Context {Sample Kwargs A : Type}.
Variable ordered_sample :
  BandCollection -> list string -> Z -> Z -> Z -> Z -> result Sample.
Variable predict : Predictor.t -> Sample -> Kwargs -> result (list (ndarray A)).
Variables (self : Predictor.t) (H W h w : Z) (directory : string)
          (kwargs : Kwargs).
Variables (rd : Block -> Sample) (out : Block -> list (ndarray A))
          (blocks : list Block).

Hypothesis sample_size_hw : Predictor.sample_size self = (h, w).
Hypothesis planned_blocks :
  SequentialSampler._compute_blocks (mk_BandCollection H W) (h, w)
    (Predictor.bound self) = Ok blocks.
Hypothesis reads_succeed :
  forall blk, In blk blocks ->
    ordered_sample (mk_BandCollection H W) (Predictor.input_channels self)
      (y blk) (x blk) (height blk) (width blk) = Ok (rd blk).
Hypothesis predictions_succeed :
  forall blk, In blk blocks ->
    predict self (rd blk) kwargs = Ok (out blk) /\
    (List.length (Predictor.output_labels self) <= List.length (out blk))%nat.

Lemma process_run_state :
  Predictor.process ordered_sample predict self (mk_BandCollection H W)
    directory kwargs
  = Some (Ok (map (fun label =>
                     mk_Band (SampleCollectionWindowWriter.join directory
                                (label ++ ".tif")%string))
                  (Predictor.output_labels self),
              run_state directory (Predictor.output_labels self) (H, W) true
                out blocks)).
Proof.
  unfold Predictor.process, SequentialSampler.__init__.
  rewrite sample_size_hw, planned_blocks. cbn [bind bc_height bc_width].
  set (src := {| SequentialSampler.band_collection := mk_BandCollection H W;
                 SequentialSampler.channels := Predictor.input_channels self;
                 SequentialSampler.sample_size := (h, w);
                 SequentialSampler.bound := Predictor.bound self;
                 SequentialSampler.blocks := blocks |}).
  pose proof (for_getitem_sampler ordered_sample src rd
                (fun item dst =>
                   let '(sample, block) := item in
                   raster <- predict self sample kwargs ;;
                   r <- SampleCollectionWindowWriter.write dst raster
                          (x block) (y block) (height block) (width block)
                          (Some (bounds block)) ;;
                   Ok (snd r))
                blocks [] (Datatypes.S (List.length blocks))
                (SampleCollectionWindowWriter.__init__ directory
                   (Predictor.output_labels self) (H, W))
                eq_refl (Nat.lt_succ_diag_r _) reads_succeed) as Hloop.
  change (len (@nil Block)) with 0 in Hloop.
  cbn [SequentialSampler.blocks src] in Hloop |- *.
  rewrite Hloop. cbn beta iota.
  rewrite (run_state_init directory (Predictor.output_labels self) (H, W) out).
  rewrite (run_loop directory (Predictor.output_labels self) (H, W) predict
             self kwargs rd out blocks []).
  - cbn [app]. now rewrite run_state_close.
  - intros blk Hin. split; [|now apply predictions_succeed].
    pose proof (blocks_are_planned _ _ _ _ _ planned_blocks) as Hpl.
    rewrite Forall_forall in Hpl. destruct (Hpl blk Hin) as (y0 & x0 & ->).
    unfold planned. cbn [bounds]. eauto.
Qed.

End CompleteRun.

Lemma process_predict_raises_witness :
  Predictor.process echo_window
    (@Predictor.predict (Z * Z * Z * Z) unit (list (ndarray Z)))
    small_predictor (mk_BandCollection 4 4) "out" tt
  = Some (Raise TypeError).
Proof.
  apply (process_predict_raises echo_window
           (@Predictor.predict (Z * Z * Z * Z) unit (list (ndarray Z)))
           small_predictor 4 4 2 2 "out" tt (0, 0, 2, 2) TypeError).
  - reflexivity.
  - lia.
  - lia.
  - simpl; lia.
  - simpl; lia.
  - reflexivity.
  - reflexivity.
Defined.



(** X17.  With a square sample size, such a run leaves on every output
    channel the write regions of the planned blocks, one window per
    block, in plan order. *)
Theorem process_square_regions {Sample Kwargs A : Type}
    (ordered_sample : BandCollection -> list string -> Z -> Z -> Z -> Z
                      -> result Sample)
    (predict : Predictor.t -> Sample -> Kwargs -> result (list (ndarray A)))
    (self : Predictor.t) (H W h : Z) (directory : string) (kwargs : Kwargs)
    (rd : Block -> Sample) (out : Block -> list (ndarray A))
    (blocks : list Block) :
  Predictor.sample_size self = (h, h) ->
  SequentialSampler._compute_blocks (mk_BandCollection H W) (h, h)
    (Predictor.bound self) = Ok blocks ->
  (forall blk, In blk blocks ->
     ordered_sample (mk_BandCollection H W) (Predictor.input_channels self)
       (y blk) (x blk) (height blk) (width blk) = Ok (rd blk)) ->
  (forall blk, In blk blocks ->
     predict self (rd blk) kwargs = Ok (out blk) /\
     (List.length (Predictor.output_labels self) <= List.length (out blk))%nat) ->
  exists bands dst,
    Predictor.process ordered_sample predict self (mk_BandCollection H W)
      directory kwargs = Some (Ok (bands, dst)) /\
    List.length (SampleCollectionWindowWriter.writers dst)
    = List.length (Predictor.output_labels self) /\
    Forall (fun writer =>
              ds_closed (SampleWindowWriter.dst writer) = true /\
              map wc_window (ds_writes (SampleWindowWriter.dst writer))
              = map region_window blocks)
           (SampleCollectionWindowWriter.writers dst).
Proof.
  intros Hsize Hplan Hread Hpred.
  eexists. eexists. split.
  - exact (process_run_state ordered_sample predict self H W h h directory
             kwargs rd out blocks Hsize Hplan Hread Hpred).
  - unfold run_state. cbn [SampleCollectionWindowWriter.writers]. split.
    + now rewrite length_map, length_seq.
    + apply Forall_forall. intros writer Hin.
      apply in_map_iff in Hin as (c & <- & _).
      unfold channel_after.
      cbn [SampleWindowWriter.dst ds_closed ds_writes].
      split; [reflexivity|].
      rewrite map_map. apply map_ext_in. intros blk Hblk.
      pose proof (blocks_are_planned _ _ _ _ _ Hplan) as Hpl.
      rewrite Forall_forall in Hpl. destruct (Hpl blk Hblk) as (y0 & x0 & ->).
      unfold block_call, region_window, top_trim, bottom_trim, left_trim,
        right_trim, trim, planned.
      cbn [wc_window x y height width bounds nth].
      f_equal; f_equal; lia.
Qed.


Lemma process_square_regions_witness :
  exists bands dst,
    Predictor.process echo_window constant_predict small_predictor
      (mk_BandCollection 4 4) "out" tt = Some (Ok (bands, dst)) /\
    List.length (SampleCollectionWindowWriter.writers dst)
    = List.length (Predictor.output_labels small_predictor) /\
    Forall (fun writer =>
              ds_closed (SampleWindowWriter.dst writer) = true /\
              map wc_window (ds_writes (SampleWindowWriter.dst writer))
              = map region_window (SequentialSampler.blocks small_sampler))
           (SampleCollectionWindowWriter.writers dst).
Proof.
  apply (process_square_regions echo_window constant_predict small_predictor
           4 4 2 "out" tt
           (fun blk => (y blk, x blk, height blk, width blk))
           (fun _ => [two_by_two])
           (SequentialSampler.blocks small_sampler)).
  - reflexivity.
  - reflexivity.
  - intros blk _. reflexivity.
  - intros blk _. split; [reflexivity | simpl; lia].
Defined.

(** ** Termination of a run *)


